(** * Health-check endpoints of the backend (routes/health.py)

    A shallow embedding of [builder/backend/routes/health.py] and the
    properties its specification states about it.

    The module talks to the outside through a handful of calls: the process
    environment, two clocks, the SQLAlchemy engine and session factory, a
    Redis client and the in-process TFrameX application.  Each of them is a
    field of a [World] record that says how the collaborator answers during
    one request: with a value or by raising.  The Python functions are
    computations in a small monad that reads the world, may raise, and logs
    every external call it makes, with the arguments it passes. *)

From Stdlib Require Import ZArith QArith Qround Bool List String Ascii Lia Lqa.
From Stdlib Require Import Decimal DecimalString.
Import ListNotations.
Local Open Scope string_scope.
Local Open Scope Z_scope.
Set Warnings "-register-all".

(** ** Python values that cross the module's boundary *)

(** An instance of Python's [Exception]: its class name and what [str(e)]
    gives.  Everything a dependency call raises on a connection refusal, a
    timeout, an authentication failure or a bad query is of this kind. *)
Record PyException := mkExc { exc_class : string; exc_str : string }.

Definition str (e : PyException) : string := exc_str e.

(** The result of a call: a value, or an exception on its way up. *)
Inductive outcome (A : Type) : Type :=
| Ok (a : A)
| Raise (e : PyException).
Arguments Ok {A} a.
Arguments Raise {A} e.

(** JSON-serialisable values, as handed to [jsonify].  A dict keeps its
    insertion order, as Python's does. *)
Inductive json : Type :=
| JNull
| JBool (b : bool)
| JInt (n : Z)
| JFloat (q : Q)
| JStr (s : string)
| JList (l : list json)
| JDict (kvs : list (string * json)).

(** [d[k]] on an association list: the first binding of [k]. *)
Fixpoint assoc {V : Type} (k : string) (kvs : list (string * V)) : option V :=
  match kvs with
  | [] => None
  | (k', v) :: rest => if String.eqb k k' then Some v else assoc k rest
  end.

Definition jget (k : string) (j : json) : option json :=
  match j with
  | JDict kvs => assoc k kvs
  | _ => None
  end.

Definition jkeys (j : json) : list string :=
  match j with
  | JDict kvs => map fst kvs
  | _ => []
  end.

(** A path of keys into nested dicts: [j[k1][k2]...]. *)
Fixpoint jpath (ks : list string) (j : json) : option json :=
  match ks with
  | [] => Some j
  | k :: ks' =>
      match jget k j with
      | Some j' => jpath ks' j'
      | None => None
      end
  end.

(** [str(n)] for a Python int, as an f-string renders it. *)
Definition str_of_int (n : Z) : string := NilZero.string_of_int (Z.to_int n).

(** ** The collaborators *)

(** A SQLAlchemy result object: what [fetchone()] and [scalar()] do. *)
Record CursorResult := mkResult {
  fetchone_ : outcome json;
  scalar_ : outcome json
}.

(** A connection or session used as a context manager: [execute] on the
    text of a statement, and [__exit__], which closes it. *)
Record Connection := mkConn {
  execute_ : string -> outcome CursorResult;
  exit_ : outcome unit
}.

(** The keyword arguments of [redis.Redis(...)]. *)
Record RedisArgs := mkRedisArgs {
  host : string;
  port : Z;
  password : option string;
  decode_responses : bool;
  socket_connect_timeout : option Q;
  socket_timeout : option Q
}.

Record RedisClient := mkRedis { ping_ : outcome bool }.

(** The TFrameX application object: the keys of its [_agents] and [_tools]
    dicts.  Reading either attribute raises when the object returned is not
    an initialised application. *)
Record TFrameXApp := mkApp {
  _agents : outcome (list string);
  _tools : outcome (list string)
}.

Record World := mkWorld {
  environ : string -> option string;          (* os.environ *)
  int_of_str : string -> outcome Z;           (* the built-in int() on a str *)
  time_time : Q;                              (* time.time() *)
  utcnow_isoformat : string;                  (* datetime.utcnow().isoformat() *)
  engine_connect : outcome Connection;        (* database.engine.connect() *)
  LocalSession : outcome Connection;          (* database.LocalSession() *)
  redis_Redis : RedisArgs -> outcome RedisClient;
  get_tframex_app_instance : outcome TFrameXApp
}.

(** ** Calls that leave the module *)

Inductive Event : Type :=
| EvGetenv (name : string)
| EvTime
| EvUtcnow
| EvEngineConnect
| EvLocalSession
| EvExecute (sql : string)
| EvFetchone
| EvScalar
| EvExit
| EvRedis (args : RedisArgs)
| EvPing
| EvGetApp
| EvAttr (name : string).

(** ** The monad: read the world, log the calls, return or raise *)

Definition M (A : Type) : Type := World -> list Event * outcome A.

Definition ret {A} (a : A) : M A := fun _ => ([], Ok a).

Definition bind {A B} (m : M A) (k : A -> M B) : M B :=
  fun w =>
    match m w with
    | (t1, Ok a) => let (t2, r) := k a w in ((t1 ++ t2)%list, r)
    | (t1, Raise e) => (t1, Raise e)
    end.

(** [try: m  except Exception as e: h e] *)
Definition try_except {A} (m : M A) (h : PyException -> M A) : M A :=
  fun w =>
    match m w with
    | (t1, Ok a) => (t1, Ok a)
    | (t1, Raise e) => let (t2, r) := h e w in ((t1 ++ t2)%list, r)
    end.

(** One external call: logged, answered by the world. *)
Definition call {A} (ev : Event) (answer : World -> outcome A) : M A :=
  fun w => ([ev], answer w).

(** A method call on an object already obtained from the world. *)
Definition method {A} (ev : Event) (answer : outcome A) : M A :=
  fun _ => ([ev], answer).

Declare Scope py_scope.
Delimit Scope py_scope with py.
Notation "x <- m ;; k" := (bind m (fun x => k))
  (at level 61, m at next level, right associativity) : py_scope.
Notation "m ;; k" := (bind m (fun _ => k))
  (at level 61, right associativity) : py_scope.
Notation "' pat <- m ;; k" := (bind m (fun x => match x with pat => k end))
  (at level 61, pat pattern, m at next level, right associativity) : py_scope.
Local Open Scope py_scope.

(** [with enter as x: body x]: the manager's [__exit__] runs whether or not
    the body raised; an exception of the body goes on up afterwards, unless
    [__exit__] itself raised, in which case that one does. *)
Definition with_ {A} (enter : M Connection) (body : Connection -> M A) : M A :=
  fun w =>
    match enter w with
    | (t1, Raise e) => (t1, Raise e)
    | (t1, Ok c) =>
        let (t2, r) := body c w in
        match exit_ c with
        | Ok _ => ((t1 ++ t2 ++ [EvExit])%list, r)
        | Raise e' => ((t1 ++ t2 ++ [EvExit])%list, Raise e')
        end
    end.

Definition trace {A} (m : M A) (w : World) : list Event := fst (m w).
Definition result {A} (m : M A) (w : World) : outcome A := snd (m w).

(** [os.getenv(name)] and [os.getenv(name, default)] with a str default. *)
Definition getenv (name : string) : M (option string) :=
  call (EvGetenv name) (fun w => Ok (environ w name)).

Definition getenv_default (name default : string) : M string :=
  v <- getenv name ;;
  ret match v with Some s => s | None => default end.

Definition utcnow_iso : M string := call EvUtcnow (fun w => Ok (utcnow_isoformat w)).
Definition time_now : M Q := call EvTime (fun w => Ok (time_time w)).

(** ** health.py *)

(** [START_TIME = time.time()], evaluated once, when the module is imported.
    No function of the module assigns it. *)
Record Process := mkProcess { START_TIME : Q }.

Definition import_module : M Process :=
  t <- time_now ;;
  ret (mkProcess t).

Definition check_database_connection_body : M unit :=
  with_ (call EvEngineConnect engine_connect) (fun conn =>
    res <- method (EvExecute "SELECT 1") (execute_ conn "SELECT 1") ;;
    _ <- method EvFetchone (fetchone_ res) ;;
    ret tt).

Definition check_database_connection : M (bool * string) :=
  try_except
    (check_database_connection_body ;;
     ret (true, "Connected"))
    (fun e => ret (false, str e)).

(** [int(os.getenv('REDIS_PORT', 6379))]: the default is the int itself. *)
Definition redis_port_of_env : M Z :=
  v <- getenv "REDIS_PORT" ;;
  match v with
  | Some s => fun w => ([], int_of_str w s)
  | None => ret 6379
  end.

Definition check_redis_connection_body : M unit :=
  redis_host <- getenv_default "REDIS_HOST" "localhost" ;;
  redis_port <- redis_port_of_env ;;
  redis_password <- getenv "REDIS_PASSWORD" ;;
  let args := mkRedisArgs redis_host redis_port redis_password true (Some 2%Q) None in
  r <- call (EvRedis args) (fun w => redis_Redis w args) ;;
  _ <- method EvPing (ping_ r) ;;
  ret tt.

Definition check_redis_connection : M (bool * string) :=
  try_except
    (check_redis_connection_body ;;
     ret (true, "Connected"))
    (fun e => ret (false, str e)).

Definition check_tframex : M (bool * string) :=
  try_except
    (tframex_app <- call EvGetApp get_tframex_app_instance ;;
     agents <- method (EvAttr "_agents") (_agents tframex_app) ;;
     let agent_count := Z.of_nat (List.length agents) in
     tools <- method (EvAttr "_tools") (_tools tframex_app) ;;
     let tool_count := Z.of_nat (List.length tools) in
     ret (true, str_of_int agent_count ++ " agents, " ++
                str_of_int tool_count ++ " tools registered"))
    (fun e => ret (false, str e)).

(** ** Float arithmetic of the uptime

    A finite Python float is a rational number.  [x // y], [x % y],
    [int(x)] and [round(x, n)] are taken at their mathematical value: floor
    division, its remainder, truncation towards zero, and rounding to [n]
    decimals with ties to the even neighbour.

    For [//] and [%] this is what the float operations compute when the
    dividend is not negative.  For a negative dividend Python's [%] adds the
    divisor to the remainder and rounds the sum, which can reach the divisor
    itself; the exact remainder never does.  Nothing below is stated about
    [py_floordiv], [py_mod] or [human_readable] at a negative uptime. *)

Definition py_floordiv (x y : Q) : Q := inject_Z (Qfloor (x / y)).

Definition py_mod (x y : Q) : Q := (x - y * inject_Z (Qfloor (x / y)))%Q.

Definition py_int (x : Q) : Z :=
  if Qle_bool 0 x then Qfloor x else Qceiling x.

Definition round_half_even (x : Q) : Z :=
  let f := Qfloor x in
  match ((x - inject_Z f) ?= (1 # 2))%Q with
  | Lt => f
  | Gt => f + 1
  | Eq => if Z.even f then f else f + 1
  end.

Definition py_round (x : Q) (ndigits : nat) : Q :=
  let scale := Z.to_pos (10 ^ Z.of_nat ndigits) in
  Qmake (round_half_even (x * inject_Z (Zpos scale))) scale.

(** [needle in hay] on two strs. *)
Fixpoint contains (needle hay : string) : bool :=
  if String.prefix needle hay then true
  else match hay with
       | EmptyString => false
       | String _ rest => contains needle rest
       end.

(** [jsonify] wraps the value in a response; the body is the value. *)
Definition jsonify (j : json) : json := j.

(** [GET /health] *)
Definition health (p : Process) : M (json * Z) :=
  now <- time_now ;;
  let uptime := (now - START_TIME p)%Q in
  ts <- utcnow_iso ;;
  ret (jsonify (JDict [
         ("status", JStr "healthy");
         ("timestamp", JStr ts);
         ("uptime_seconds", JFloat (py_round uptime 2));
         ("version", JStr "1.0.0");
         ("service", JStr "prossima-ai-backend");
         ("company", JStr "Prossimagen Technologies")]), 200).

(** [GET /health/live] *)
Definition liveness : M (json * Z) :=
  ts <- utcnow_iso ;;
  ret (jsonify (JDict [
         ("status", JStr "alive");
         ("timestamp", JStr ts)]), 200).

(** The [checks] dict of [readiness]: the three probes, run in the order the
    dict literal lists them. *)
Definition readiness_checks : M (list (string * (bool * string))) :=
  db <- check_database_connection ;;
  rd <- check_redis_connection ;;
  tf <- check_tframex ;;
  ret [("database", db); ("redis", rd); ("tframex", tf)].

(** [GET /health/ready] *)
Definition readiness : M (json * Z) :=
  checks <- readiness_checks ;;
  let all_healthy := forallb (fun c : bool * string => let (status, _) := c in status) (map snd checks) in
  let status_code := if all_healthy then 200 else 503 in
  ts <- utcnow_iso ;;
  let response := JDict [
    ("status", JStr (if all_healthy then "ready" else "not_ready"));
    ("timestamp", JStr ts);
    ("checks", JDict (map (fun '((name, (status, message)) : string * (bool * string)) =>
                  (name, JDict [
                     ("status", JStr (if status then "pass" else "fail"));
                     ("message", JStr message)]))
                checks))] in
  ret (jsonify response, status_code).

Definition count_projects : string := "SELECT COUNT(*) FROM projects".
Definition count_flows : string := "SELECT COUNT(*) FROM flows".
Definition count_users : string := "SELECT COUNT(*) FROM users".

(** [session.execute(text(sql)).scalar()] *)
Definition execute_scalar (session : Connection) (sql : string) : M json :=
  res <- method (EvExecute sql) (execute_ session sql) ;;
  method EvScalar (scalar_ res).

(** The metrics block of [detailed_health]: three counts, or [None]. *)
Definition db_metrics_body : M json :=
  '(project_count, flow_count, user_count) <-
    with_ (call EvLocalSession LocalSession) (fun session =>
      project_count <- execute_scalar session count_projects ;;
      flow_count <- execute_scalar session count_flows ;;
      user_count <- execute_scalar session count_users ;;
      ret (project_count, flow_count, user_count)) ;;
  ret (JDict [
         ("projects", project_count);
         ("flows", flow_count);
         ("users", user_count)]).

Definition get_db_metrics : M json :=
  try_except db_metrics_body (fun _ => ret JNull).

Definition get_tframex_details : M json :=
  try_except
    (tframex_app <- call EvGetApp get_tframex_app_instance ;;
     agents <- method (EvAttr "_agents") (_agents tframex_app) ;;
     tools <- method (EvAttr "_tools") (_tools tframex_app) ;;
     ret (JDict [
            ("agents", JList (map JStr agents));
            ("tools", JList (map JStr tools));
            ("patterns", JList [JStr "sequential"; JStr "parallel";
                                JStr "router"; JStr "discussion"])]))
    (fun _ => ret JNull).

Definition human_readable (uptime : Q) : string :=
  str_of_int (py_int (py_floordiv uptime 3600)) ++ "h " ++
  str_of_int (py_int (py_floordiv (py_mod uptime 3600) 60)) ++ "m " ++
  str_of_int (py_int (py_mod uptime 60)) ++ "s".

Definition database_url_kind (url : string) : string :=
  if contains "postgresql" url then "postgresql" else "sqlite".

(** [GET /health/detailed] *)
Definition detailed_health (p : Process) : M (json * Z) :=
  now <- time_now ;;
  let uptime := (now - START_TIME p)%Q in
  '(db_status, db_message) <- check_database_connection ;;
  '(redis_status, redis_message) <- check_redis_connection ;;
  '(tframex_status, tframex_message) <- check_tframex ;;
  db_metrics <- get_db_metrics ;;
  tframex_details <- get_tframex_details ;;
  ts <- utcnow_iso ;;
  flask_env <- getenv_default "FLASK_ENV" "production" ;;
  database_url <- getenv_default "DATABASE_URL" "" ;;
  redis_host <- getenv_default "REDIS_HOST" "localhost" ;;
  let all_ok := forallb (fun b : bool => b) [db_status; redis_status; tframex_status] in
  let response := JDict [
    ("status", JStr (if all_ok then "healthy" else "degraded"));
    ("timestamp", JStr ts);
    ("version", JStr "1.0.0");
    ("service", JStr "prossima-ai-backend");
    ("company", JStr "Prossimagen Technologies");
    ("uptime", JDict [
       ("seconds", JFloat (py_round uptime 2));
       ("human_readable", JStr (human_readable uptime))]);
    ("components", JDict [
       ("database", JDict [
          ("status", JStr (if db_status then "healthy" else "unhealthy"));
          ("message", JStr db_message);
          ("metrics", db_metrics)]);
       ("redis", JDict [
          ("status", JStr (if redis_status then "healthy" else "unhealthy"));
          ("message", JStr redis_message)]);
       ("tframex", JDict [
          ("status", JStr (if tframex_status then "healthy" else "unhealthy"));
          ("message", JStr tframex_message);
          ("details", tframex_details)])]);
    ("environment", JDict [
       ("flask_env", JStr flask_env);
       ("database_url", JStr (database_url_kind database_url));
       ("redis_host", JStr redis_host)])] in
  let status_code := if all_ok then 200 else 503 in
  ret (jsonify response, status_code).

(** ** What "the dependency faults" means, call by call

    These relations follow the dependency calls a probe makes and name the
    exception that reaches the probe's [except] clause. *)

Definition select_1 : string := "SELECT 1".

Inductive database_fault (w : World) : PyException -> Prop :=
| db_connect_fault e :
    engine_connect w = Raise e -> database_fault w e
| db_execute_fault c e :
    engine_connect w = Ok c -> execute_ c select_1 = Raise e ->
    exit_ c = Ok tt -> database_fault w e
| db_fetchone_fault c r e :
    engine_connect w = Ok c -> execute_ c select_1 = Ok r ->
    fetchone_ r = Raise e -> exit_ c = Ok tt -> database_fault w e
| db_close_fault c e :
    engine_connect w = Ok c -> exit_ c = Raise e -> database_fault w e.

Definition database_sound (w : World) : Prop :=
  exists c r row, engine_connect w = Ok c /\ execute_ c select_1 = Ok r /\
                  fetchone_ r = Ok row /\ exit_ c = Ok tt.

(** The port and the arguments the Redis client is built with. *)
Definition redis_port (w : World) : outcome Z :=
  match environ w "REDIS_PORT" with
  | Some s => int_of_str w s
  | None => Ok 6379
  end.

Definition redis_args (w : World) (p : Z) : RedisArgs :=
  mkRedisArgs
    match environ w "REDIS_HOST" with Some h => h | None => "localhost" end
    p (environ w "REDIS_PASSWORD") true (Some 2%Q) None.

Inductive redis_fault (w : World) : PyException -> Prop :=
| redis_port_fault e :
    redis_port w = Raise e -> redis_fault w e
| redis_client_fault p e :
    redis_port w = Ok p -> redis_Redis w (redis_args w p) = Raise e ->
    redis_fault w e
| redis_ping_fault p r e :
    redis_port w = Ok p -> redis_Redis w (redis_args w p) = Ok r ->
    ping_ r = Raise e -> redis_fault w e.

Definition redis_sound (w : World) : Prop :=
  exists p r b, redis_port w = Ok p /\ redis_Redis w (redis_args w p) = Ok r /\
                ping_ r = Ok b.

Inductive tframex_fault (w : World) : PyException -> Prop :=
| tframex_instance_fault e :
    get_tframex_app_instance w = Raise e -> tframex_fault w e
| tframex_agents_fault app e :
    get_tframex_app_instance w = Ok app -> _agents app = Raise e ->
    tframex_fault w e
| tframex_tools_fault app ags e :
    get_tframex_app_instance w = Ok app -> _agents app = Ok ags ->
    _tools app = Raise e -> tframex_fault w e.

Definition tframex_sound (w : World) (agents tools : list string) : Prop :=
  exists app, get_tframex_app_instance w = Ok app /\
              _agents app = Ok agents /\ _tools app = Ok tools.

Definition registered_message (agents tools : list string) : string :=
  str_of_int (Z.of_nat (List.length agents)) ++ " agents, " ++
  str_of_int (Z.of_nat (List.length tools)) ++ " tools registered".

(** The verdict of a probe in a world. *)
Definition probe_ok (probe : M (bool * string)) (w : World) : bool :=
  match result probe w with
  | Ok (ok, _) => ok
  | Raise _ => false
  end.

Definition all_probes_ok (w : World) : bool :=
  probe_ok check_database_connection w &&
  probe_ok check_redis_connection w &&
  probe_ok check_tframex w.

Definition probe_message (probe : M (bool * string)) (w : World) : string :=
  match result probe w with
  | Ok (_, msg) => msg
  | Raise e => str e
  end.

Definition every_probe_ok (w : World) : Prop :=
  probe_ok check_database_connection w = true /\
  probe_ok check_redis_connection w = true /\
  probe_ok check_tframex w = true.

Definition some_probe_failed (w : World) : Prop :=
  probe_ok check_database_connection w = false \/
  probe_ok check_redis_connection w = false \/
  probe_ok check_tframex w = false.

(** What the metrics block and the details block leave in their variable. *)
Definition db_metrics_of (w : World) : json :=
  match result get_db_metrics w with
  | Ok j => j
  | Raise _ => JNull
  end.

Definition tframex_details_of (w : World) : json :=
  match result get_tframex_details w with
  | Ok j => j
  | Raise _ => JNull
  end.

Definition env_or (w : World) (name default : string) : string :=
  match environ w name with
  | Some s => s
  | None => default
  end.

(** The faults of the metrics block of [detailed_health]. *)
Definition scalar_of (session : Connection) (sql : string) : outcome json :=
  match execute_ session sql with
  | Ok r => scalar_ r
  | Raise e => Raise e
  end.

Inductive metrics_fault (w : World) : PyException -> Prop :=
| metrics_session_fault e :
    LocalSession w = Raise e -> metrics_fault w e
| metrics_close_fault s e :
    LocalSession w = Ok s -> exit_ s = Raise e -> metrics_fault w e
| metrics_projects_fault s e :
    LocalSession w = Ok s -> exit_ s = Ok tt ->
    scalar_of s count_projects = Raise e -> metrics_fault w e
| metrics_flows_fault s n e :
    LocalSession w = Ok s -> exit_ s = Ok tt ->
    scalar_of s count_projects = Ok n ->
    scalar_of s count_flows = Raise e -> metrics_fault w e
| metrics_users_fault s n m e :
    LocalSession w = Ok s -> exit_ s = Ok tt ->
    scalar_of s count_projects = Ok n ->
    scalar_of s count_flows = Ok m ->
    scalar_of s count_users = Raise e -> metrics_fault w e.

(** The same world with another session factory. *)
Definition with_LocalSession (w : World) (s : outcome Connection) : World :=
  mkWorld (environ w) (int_of_str w) (time_time w) (utcnow_isoformat w)
          (engine_connect w) s (redis_Redis w) (get_tframex_app_instance w).

(** The same world at another time of day. *)
Definition at_time (w : World) (t : Q) : World :=
  mkWorld (environ w) (int_of_str w) t (utcnow_isoformat w)
          (engine_connect w) (LocalSession w) (redis_Redis w)
          (get_tframex_app_instance w).

(** The same world with another process environment. *)
Definition with_environ (w : World) (env : string -> option string) : World :=
  mkWorld env (int_of_str w) (time_time w) (utcnow_isoformat w)
          (engine_connect w) (LocalSession w) (redis_Redis w)
          (get_tframex_app_instance w).

(** ** Sample worlds *)

Definition sample_rows : CursorResult :=
  mkResult (Ok (JList [JInt 1])) (Ok (JInt 7)).

Definition sample_connection : Connection :=
  mkConn (fun _ => Ok sample_rows) (Ok tt).

Definition refused : PyException :=
  mkExc "ConnectionError" "Connection refused".

Definition not_initialised : PyException :=
  mkExc "AttributeError" "'NoneType' object has no attribute '_agents'".

Definition bad_literal : PyException :=
  mkExc "ValueError" "invalid literal for int() with base 10".

Definition sample_app : TFrameXApp :=
  mkApp (Ok ["planner"; "coder"]) (Ok ["search"]).

(** A world in which each of the three dependencies is down or up, as the
    flags say; the environment is empty. *)
Definition world_with (db_down redis_down tframex_down : bool) : World :=
  mkWorld (fun _ => None) (fun _ => Raise bad_literal)
          (1000 # 1) "2024-01-01T00:00:00"
          (if db_down then Raise refused else Ok sample_connection)
          (Ok sample_connection)
          (fun _ => if redis_down then Raise refused else Ok (mkRedis (Ok true)))
          (if tframex_down then Raise not_initialised else Ok sample_app).

Definition world_up : World := world_with false false false.

(** ** Counting calls in a trace *)

Definition count (f : Event -> bool) (t : list Event) : nat :=
  List.length (filter f t).

Definition is_engine_connect (ev : Event) : bool :=
  match ev with EvEngineConnect => true | _ => false end.

Definition is_local_session (ev : Event) : bool :=
  match ev with EvLocalSession => true | _ => false end.

Definition is_exit (ev : Event) : bool :=
  match ev with EvExit => true | _ => false end.

Definition is_redis_new (ev : Event) : bool :=
  match ev with EvRedis _ => true | _ => false end.

Definition is_ping (ev : Event) : bool :=
  match ev with EvPing => true | _ => false end.

Definition is_get_app (ev : Event) : bool :=
  match ev with EvGetApp => true | _ => false end.

Definition is_time (ev : Event) : bool :=
  match ev with EvTime => true | _ => false end.

(** The same world with another engine, Redis server or application. *)
Definition with_engine_connect (w : World) (c : outcome Connection) : World :=
  mkWorld (environ w) (int_of_str w) (time_time w) (utcnow_isoformat w)
          c (LocalSession w) (redis_Redis w) (get_tframex_app_instance w).

Definition with_redis_Redis (w : World)
    (f : RedisArgs -> outcome RedisClient) : World :=
  mkWorld (environ w) (int_of_str w) (time_time w) (utcnow_isoformat w)
          (engine_connect w) (LocalSession w) f (get_tframex_app_instance w).

Definition with_tframex_app (w : World) (a : outcome TFrameXApp) : World :=
  mkWorld (environ w) (int_of_str w) (time_time w) (utcnow_isoformat w)
          (engine_connect w) (LocalSession w) (redis_Redis w) a.

(** The three counts of the metrics block all come back. *)
Definition metrics_sound (w : World) (n m k : json) : Prop :=
  exists s, LocalSession w = Ok s /\ exit_ s = Ok tt /\
            scalar_of s count_projects = Ok n /\
            scalar_of s count_flows = Ok m /\
            scalar_of s count_users = Ok k.

(** A world whose REDIS_PORT is not a number, and one whose server answers
    the ping with [False]. *)
Definition world_bad_port : World :=
  with_environ world_up
    (fun name => if String.eqb name "REDIS_PORT" then Some "abc" else None).

Definition world_ping_false : World :=
  with_redis_Redis world_up (fun _ => Ok (mkRedis (Ok false))).

(** ** Laws of the monad *)

Lemma result_bind {A B} (m : M A) (k : A -> M B) (w : World) :
  result (bind m k) w =
  match result m w with
  | Ok a => result (k a) w
  | Raise e => Raise e
  end.
Proof.
  unfold result, bind. destruct (m w) as [t1 [a|e]]; simpl; auto.
  destruct (k a w); reflexivity.
Qed.

Lemma result_try_except {A} (m : M A) (h : PyException -> M A) (w : World) :
  result (try_except m h) w =
  match result m w with
  | Ok a => Ok a
  | Raise e => result (h e) w
  end.
Proof.
  unfold result, try_except. destruct (m w) as [t1 [a|e]]; simpl; auto.
  destruct (h e w); reflexivity.
Qed.

(** A handler that only returns makes the whole [try] return. *)
Lemma try_except_returns {A} (m : M A) (f : PyException -> A) (w : World) :
  exists a, result (try_except m (fun e => ret (f e))) w = Ok a.
Proof.
  rewrite result_try_except. destruct (result m w) as [a|e]; eexists; reflexivity.
Qed.

(** ** The probes, case by case *)

Lemma database_body_fault w e :
  database_fault w e -> result check_database_connection_body w = Raise e.
Proof.
  unfold result, check_database_connection_body, with_, call, method, bind, ret.
  fold select_1.
  intros [e' H | c e' H1 H2 H3 | c r e' H1 H2 H3 H4 | c e' H1 H2]; rewrite ?H, ?H1; simpl.
  - reflexivity.
  - rewrite H2, H3. reflexivity.
  - rewrite H2, H3, H4. reflexivity.
  - rewrite H2. destruct (execute_ c select_1) as [r|]; [destruct (fetchone_ r)|]; reflexivity.
Qed.

Lemma database_body_sound w :
  database_sound w -> result check_database_connection_body w = Ok tt.
Proof.
  unfold result, check_database_connection_body, with_, call, method, bind, ret.
  fold select_1.
  intros (c & r & row & H1 & H2 & H3 & H4). rewrite H1; simpl.
  rewrite H2, H3, H4. reflexivity.
Qed.

Lemma database_cases w : database_sound w \/ exists e, database_fault w e.
Proof.
  destruct (engine_connect w) as [c|e] eqn:Hc.
  2:{ right. exists e. now apply db_connect_fault. }
  destruct (exit_ c) as [[]|e] eqn:Hx.
  2:{ right. exists e. eapply db_close_fault; eauto. }
  destruct (execute_ c select_1) as [r|e] eqn:He.
  2:{ right. exists e. eapply db_execute_fault; eauto. }
  destruct (fetchone_ r) as [row|e] eqn:Hf.
  2:{ right. exists e. eapply db_fetchone_fault; eauto. }
  left. exists c, r, row. auto.
Qed.

Lemma redis_port_of_env_result w : result redis_port_of_env w = redis_port w.
Proof.
  unfold result, redis_port_of_env, redis_port, bind, getenv, call, ret.
  destruct (environ w "REDIS_PORT"); reflexivity.
Qed.

Lemma redis_body_result w :
  result check_redis_connection_body w =
  match redis_port w with
  | Raise e => Raise e
  | Ok p =>
      match redis_Redis w (redis_args w p) with
      | Raise e => Raise e
      | Ok r => match ping_ r with Raise e => Raise e | Ok _ => Ok tt end
      end
  end.
Proof.
  unfold result, check_redis_connection_body, redis_port_of_env, getenv_default,
    getenv, bind, call, method, ret, redis_port, redis_args.
  cbn.
  destruct (environ w "REDIS_PORT") as [s|]; cbn.
  - destruct (int_of_str w s) as [p|e]; cbn; [|reflexivity].
    destruct (redis_Redis w _) as [r|e]; cbn; [|reflexivity].
    destruct (ping_ r); reflexivity.
  - destruct (redis_Redis w _) as [r|e]; cbn; [|reflexivity].
    destruct (ping_ r); reflexivity.
Qed.

Lemma redis_body_fault w e :
  redis_fault w e -> result check_redis_connection_body w = Raise e.
Proof.
  rewrite redis_body_result.
  intros [e' H | p e' H1 H2 | p r e' H1 H2 H3]; rewrite ?H, ?H1, ?H2, ?H3; reflexivity.
Qed.

Lemma redis_body_sound w :
  redis_sound w -> result check_redis_connection_body w = Ok tt.
Proof.
  rewrite redis_body_result.
  intros (p & r & b & H1 & H2 & H3). rewrite H1, H2, H3. reflexivity.
Qed.

Lemma redis_cases w : redis_sound w \/ exists e, redis_fault w e.
Proof.
  destruct (redis_port w) as [p|e] eqn:Hp.
  2:{ right. exists e. now apply redis_port_fault. }
  destruct (redis_Redis w (redis_args w p)) as [r|e] eqn:Hr.
  2:{ right. exists e. eapply redis_client_fault; eauto. }
  destruct (ping_ r) as [b|e] eqn:Hg.
  2:{ right. exists e. eapply redis_ping_fault; eauto. }
  left. exists p, r, b. auto.
Qed.

Lemma tframex_result w :
  result check_tframex w =
  match get_tframex_app_instance w with
  | Raise e => Ok (false, str e)
  | Ok app =>
      match _agents app with
      | Raise e => Ok (false, str e)
      | Ok ags =>
          match _tools app with
          | Raise e => Ok (false, str e)
          | Ok tls => Ok (true, registered_message ags tls)
          end
      end
  end.
Proof.
  unfold result, check_tframex, try_except, bind, call, method, ret.
  destruct (get_tframex_app_instance w) as [app|e]; cbn; [|reflexivity].
  destruct (_agents app) as [ags|e]; cbn; [|reflexivity].
  destruct (_tools app) as [tls|e]; reflexivity.
Qed.

Lemma tframex_cases w :
  (exists ags tls, tframex_sound w ags tls) \/ exists e, tframex_fault w e.
Proof.
  destruct (get_tframex_app_instance w) as [app|e] eqn:Ha.
  2:{ right. exists e. now apply tframex_instance_fault. }
  destruct (_agents app) as [ags|e] eqn:Hg.
  2:{ right. exists e. eapply tframex_agents_fault; eauto. }
  destruct (_tools app) as [tls|e] eqn:Ht.
  2:{ right. exists e. eapply tframex_tools_fault; eauto. }
  left. exists ags, tls, app. auto.
Qed.

(** A probe built as [try: body; return True, msg  except: return False, str(e)]. *)
Lemma guarded_probe_result (body : M unit) (msg : string) (w : World) :
  result (try_except (body ;; ret (true, msg)) (fun e => ret (false, str e))) w =
  match result body w with
  | Ok _ => Ok (true, msg)
  | Raise e => Ok (false, str e)
  end.
Proof.
  rewrite result_try_except, result_bind.
  destruct (result body w); reflexivity.
Qed.

Lemma database_fault_result w e :
  database_fault w e -> result check_database_connection w = Ok (false, str e).
Proof.
  intros H. unfold check_database_connection.
  now rewrite guarded_probe_result, (database_body_fault w e H).
Qed.

Lemma database_sound_result w :
  database_sound w -> result check_database_connection w = Ok (true, "Connected").
Proof.
  intros H. unfold check_database_connection.
  now rewrite guarded_probe_result, (database_body_sound w H).
Qed.

Lemma redis_fault_result w e :
  redis_fault w e -> result check_redis_connection w = Ok (false, str e).
Proof.
  intros H. unfold check_redis_connection.
  now rewrite guarded_probe_result, (redis_body_fault w e H).
Qed.

Lemma redis_sound_result w :
  redis_sound w -> result check_redis_connection w = Ok (true, "Connected").
Proof.
  intros H. unfold check_redis_connection.
  now rewrite guarded_probe_result, (redis_body_sound w H).
Qed.

Lemma tframex_fault_result w e :
  tframex_fault w e -> result check_tframex w = Ok (false, str e).
Proof.
  rewrite tframex_result.
  intros [e' H | app e' H1 H2 | app ags e' H1 H2 H3]; rewrite ?H, ?H1, ?H2, ?H3; reflexivity.
Qed.

Lemma tframex_sound_result w ags tls :
  tframex_sound w ags tls ->
  result check_tframex w = Ok (true, registered_message ags tls).
Proof.
  rewrite tframex_result. intros (app & H1 & H2 & H3). now rewrite H1, H2, H3.
Qed.

(** ** The probe boundary *)

(** C3. A probe never lets a fault of its dependency through: whatever the
    world does, each of the three probes returns a pair; when a dependency
    call raises [e] the pair is [(False, str(e))], and when all of them
    answer it is [(True, message)].  Every world is in one of the two
    cases. *)
Theorem probes_never_propagate_faults (w : World) :
  ((exists ok msg, result check_database_connection w = Ok (ok, msg)) /\
   (forall e, database_fault w e ->
              result check_database_connection w = Ok (false, str e)) /\
   (database_sound w ->
    result check_database_connection w = Ok (true, "Connected")) /\
   (database_sound w \/ exists e, database_fault w e)) /\
  ((exists ok msg, result check_redis_connection w = Ok (ok, msg)) /\
   (forall e, redis_fault w e ->
              result check_redis_connection w = Ok (false, str e)) /\
   (redis_sound w ->
    result check_redis_connection w = Ok (true, "Connected")) /\
   (redis_sound w \/ exists e, redis_fault w e)) /\
  ((exists ok msg, result check_tframex w = Ok (ok, msg)) /\
   (forall e, tframex_fault w e ->
              result check_tframex w = Ok (false, str e)) /\
   (forall ags tls, tframex_sound w ags tls ->
      result check_tframex w = Ok (true, registered_message ags tls)) /\
   ((exists ags tls, tframex_sound w ags tls) \/ exists e, tframex_fault w e)).
Proof.
  split; [|split]; (split; [|split; [|split]]).
  - destruct (database_cases w) as [H | [e H]].
    + eexists _, _. apply database_sound_result. eassumption.
    + eexists _, _. apply database_fault_result. eassumption.
  - apply database_fault_result.
  - apply database_sound_result.
  - apply database_cases.
  - destruct (redis_cases w) as [H | [e H]].
    + eexists _, _. apply redis_sound_result. eassumption.
    + eexists _, _. apply redis_fault_result. eassumption.
  - apply redis_fault_result.
  - apply redis_sound_result.
  - apply redis_cases.
  - destruct (tframex_cases w) as [(ags & tls & H) | [e H]].
    + eexists _, _. apply tframex_sound_result. eassumption.
    + eexists _, _. apply tframex_fault_result. eassumption.
  - apply tframex_fault_result.
  - apply tframex_sound_result.
  - apply tframex_cases.
Qed.

(** With the database refusing connections and the rest up. *)
Lemma probes_never_propagate_faults_witness :
  result check_database_connection (world_with true false false)
    = Ok (false, "Connection refused") /\
  result check_redis_connection (world_with true false false)
    = Ok (true, "Connected") /\
  result check_tframex (world_with true false false)
    = Ok (true, "2 agents, 1 tools registered").
Proof.
  destruct (probes_never_propagate_faults (world_with true false false))
    as ((_ & Hdb & _) & (_ & _ & Hrd & _) & (_ & _ & Htf & _)).
  split; [|split].
  - apply (Hdb refused). apply db_connect_fault. reflexivity.
  - apply Hrd. exists 6379, (mkRedis (Ok true)), true. repeat split; reflexivity.
  - apply (Htf ["planner"; "coder"] ["search"]).
    exists sample_app. repeat split; reflexivity.
Defined.

(** ** The endpoints in closed form *)

Lemma probe_returns (body : M (bool * string)) (f : PyException -> bool * string) w :
  let probe := try_except body (fun e => ret (f e)) in
  result probe w = Ok (probe_ok probe w, probe_message probe w).
Proof.
  intros probe. destruct (try_except_returns body f w) as [[ok msg] H].
  unfold probe_ok, probe_message. fold probe in H |- *. now rewrite H.
Qed.

Lemma database_returns w :
  result check_database_connection w =
  Ok (probe_ok check_database_connection w, probe_message check_database_connection w).
Proof. apply probe_returns. Qed.

Lemma redis_returns w :
  result check_redis_connection w =
  Ok (probe_ok check_redis_connection w, probe_message check_redis_connection w).
Proof. apply probe_returns. Qed.

Lemma tframex_returns w :
  result check_tframex w =
  Ok (probe_ok check_tframex w, probe_message check_tframex w).
Proof. apply probe_returns. Qed.

Lemma readiness_checks_run w :
  result readiness_checks w =
  Ok [("database", (probe_ok check_database_connection w,
                    probe_message check_database_connection w));
      ("redis", (probe_ok check_redis_connection w,
                 probe_message check_redis_connection w));
      ("tframex", (probe_ok check_tframex w, probe_message check_tframex w))].
Proof.
  unfold readiness_checks.
  rewrite result_bind, database_returns.
  rewrite result_bind, redis_returns.
  rewrite result_bind, tframex_returns.
  reflexivity.
Qed.

Lemma all_probes_ok_spec w : all_probes_ok w = true <-> every_probe_ok w.
Proof.
  unfold all_probes_ok, every_probe_ok.
  rewrite !andb_true_iff. tauto.
Qed.

Lemma all_probes_ok_false w : all_probes_ok w = false <-> some_probe_failed w.
Proof.
  unfold all_probes_ok, some_probe_failed.
  rewrite !andb_false_iff. tauto.
Qed.

Lemma readiness_run w :
  result readiness w =
  Ok (JDict [
        ("status", JStr (if all_probes_ok w then "ready" else "not_ready"));
        ("timestamp", JStr (utcnow_isoformat w));
        ("checks", JDict [
           ("database", JDict [
              ("status", JStr (if probe_ok check_database_connection w
                               then "pass" else "fail"));
              ("message", JStr (probe_message check_database_connection w))]);
           ("redis", JDict [
              ("status", JStr (if probe_ok check_redis_connection w
                               then "pass" else "fail"));
              ("message", JStr (probe_message check_redis_connection w))]);
           ("tframex", JDict [
              ("status", JStr (if probe_ok check_tframex w
                               then "pass" else "fail"));
              ("message", JStr (probe_message check_tframex w))])])],
      if all_probes_ok w then 200 else 503).
Proof.
  unfold readiness.
  rewrite result_bind, readiness_checks_run.
  rewrite result_bind. unfold utcnow_iso at 1, call at 1, result at 1.
  cbn [snd]. unfold all_probes_ok.
  destruct (probe_ok check_database_connection w),
           (probe_ok check_redis_connection w),
           (probe_ok check_tframex w); reflexivity.
Qed.

Lemma get_db_metrics_returns w : result get_db_metrics w = Ok (db_metrics_of w).
Proof.
  unfold db_metrics_of.
  destruct (try_except_returns db_metrics_body (fun _ => JNull) w) as [j H].
  fold get_db_metrics in H. now rewrite H.
Qed.

Lemma get_tframex_details_returns w :
  result get_tframex_details w = Ok (tframex_details_of w).
Proof.
  unfold tframex_details_of, get_tframex_details.
  match goal with
  | |- context [try_except ?b _] =>
      destruct (try_except_returns b (fun _ => JNull) w) as [j H]
  end.
  now rewrite H.
Qed.

Lemma getenv_default_result w name default :
  result (getenv_default name default) w = Ok (env_or w name default).
Proof. reflexivity. Qed.

Lemma time_now_result w : result time_now w = Ok (time_time w).
Proof. reflexivity. Qed.

Lemma utcnow_iso_result w : result utcnow_iso w = Ok (utcnow_isoformat w).
Proof. reflexivity. Qed.

Lemma detailed_health_run p w :
  result (detailed_health p) w =
  let uptime := (time_time w - START_TIME p)%Q in
  Ok (JDict [
        ("status", JStr (if all_probes_ok w then "healthy" else "degraded"));
        ("timestamp", JStr (utcnow_isoformat w));
        ("version", JStr "1.0.0");
        ("service", JStr "prossima-ai-backend");
        ("company", JStr "Prossimagen Technologies");
        ("uptime", JDict [
           ("seconds", JFloat (py_round uptime 2));
           ("human_readable", JStr (human_readable uptime))]);
        ("components", JDict [
           ("database", JDict [
              ("status", JStr (if probe_ok check_database_connection w
                               then "healthy" else "unhealthy"));
              ("message", JStr (probe_message check_database_connection w));
              ("metrics", db_metrics_of w)]);
           ("redis", JDict [
              ("status", JStr (if probe_ok check_redis_connection w
                               then "healthy" else "unhealthy"));
              ("message", JStr (probe_message check_redis_connection w))]);
           ("tframex", JDict [
              ("status", JStr (if probe_ok check_tframex w
                               then "healthy" else "unhealthy"));
              ("message", JStr (probe_message check_tframex w));
              ("details", tframex_details_of w)])]);
        ("environment", JDict [
           ("flask_env", JStr (env_or w "FLASK_ENV" "production"));
           ("database_url", JStr (database_url_kind (env_or w "DATABASE_URL" "")));
           ("redis_host", JStr (env_or w "REDIS_HOST" "localhost"))])],
      if all_probes_ok w then 200 else 503).
Proof.
  unfold detailed_health.
  rewrite result_bind, time_now_result.
  rewrite result_bind, database_returns.
  rewrite result_bind, redis_returns.
  rewrite result_bind, tframex_returns.
  rewrite result_bind, get_db_metrics_returns.
  rewrite result_bind, get_tframex_details_returns.
  rewrite result_bind, utcnow_iso_result.
  rewrite !result_bind, !getenv_default_result.
  unfold all_probes_ok.
  destruct (probe_ok check_database_connection w),
           (probe_ok check_redis_connection w),
           (probe_ok check_tframex w); reflexivity.
Qed.

Lemma database_fault_iff w :
  (exists e, database_fault w e) <-> probe_ok check_database_connection w = false.
Proof.
  unfold probe_ok. split.
  - intros [e H]. now rewrite (database_fault_result w e H).
  - intros H. destruct (database_cases w) as [Hs | Hf]; [|exact Hf].
    rewrite (database_sound_result w Hs) in H. discriminate.
Qed.

Lemma redis_fault_iff w :
  (exists e, redis_fault w e) <-> probe_ok check_redis_connection w = false.
Proof.
  unfold probe_ok. split.
  - intros [e H]. now rewrite (redis_fault_result w e H).
  - intros H. destruct (redis_cases w) as [Hs | Hf]; [|exact Hf].
    rewrite (redis_sound_result w Hs) in H. discriminate.
Qed.

Lemma tframex_fault_iff w :
  (exists e, tframex_fault w e) <-> probe_ok check_tframex w = false.
Proof.
  unfold probe_ok. split.
  - intros [e H]. now rewrite (tframex_fault_result w e H).
  - intros H. destruct (tframex_cases w) as [(ags & tls & Hs) | Hf]; [|exact Hf].
    rewrite (tframex_sound_result w ags tls Hs) in H. discriminate.
Qed.

(** ** The verdict *)

(** C1. The verdict is the conjunction of the probe outcomes.  The readiness
    endpoint answers "ready" with 200 exactly when every probe's ok is true
    and "not_ready" with 503 exactly when some probe's ok is false; the
    detailed endpoint answers "healthy" with 200 and "degraded" with 503
    under the same rule.  Both endpoints return a response in every world. *)
Theorem verdict_is_conjunction_of_probes (p : Process) (w : World) :
  (exists body code,
     result readiness w = Ok (body, code) /\
     (jget "status" body = Some (JStr "ready") /\ code = 200
        <-> every_probe_ok w) /\
     (jget "status" body = Some (JStr "not_ready") /\ code = 503
        <-> some_probe_failed w) /\
     (code = 200 <-> every_probe_ok w) /\
     (jget "status" body = Some (JStr "ready") <-> every_probe_ok w)) /\
  (exists body code,
     result (detailed_health p) w = Ok (body, code) /\
     (jget "status" body = Some (JStr "healthy") /\ code = 200
        <-> every_probe_ok w) /\
     (jget "status" body = Some (JStr "degraded") /\ code = 503
        <-> some_probe_failed w) /\
     (code = 200 <-> every_probe_ok w) /\
     (jget "status" body = Some (JStr "healthy") <-> every_probe_ok w)).
Proof.
  split.
  - rewrite readiness_run. eexists _, _. split; [reflexivity|].
    rewrite <- all_probes_ok_spec, <- all_probes_ok_false.
    destruct (all_probes_ok w); cbn;
      repeat split; intros; try tauto; try discriminate;
      try (destruct H; discriminate).
  - rewrite detailed_health_run. eexists _, _. split; [reflexivity|].
    rewrite <- all_probes_ok_spec, <- all_probes_ok_false.
    destruct (all_probes_ok w); cbn;
      repeat split; intros; try tauto; try discriminate;
      try (destruct H; discriminate).
Qed.

(** The cache refuses connections: 503, the redis entry fails with the
    exception's text, the other two pass. *)
Example readiness_with_cache_down :
  result readiness (world_with false true false) =
  Ok (JDict [
        ("status", JStr "not_ready");
        ("timestamp", JStr "2024-01-01T00:00:00");
        ("checks", JDict [
           ("database", JDict [("status", JStr "pass");
                               ("message", JStr "Connected")]);
           ("redis", JDict [("status", JStr "fail");
                            ("message", JStr "Connection refused")]);
           ("tframex", JDict [("status", JStr "pass");
                              ("message", JStr "2 agents, 1 tools registered")])])],
      503).
Proof. reflexivity. Qed.

Example readiness_with_all_up :
  exists body, result readiness world_up = Ok (body, 200) /\
               jget "status" body = Some (JStr "ready").
Proof. eexists. split; reflexivity. Qed.

(** The application is not initialised: 503, the tframex component is
    unhealthy and carries no details. *)
Example detailed_with_registry_down :
  exists body,
    result (detailed_health (mkProcess 0)) (world_with false false true)
      = Ok (body, 503) /\
    jget "status" body = Some (JStr "degraded") /\
    jpath ["components"; "tframex"; "status"] body = Some (JStr "unhealthy") /\
    jpath ["components"; "tframex"; "details"] body = Some JNull /\
    jpath ["components"; "database"; "status"] body = Some (JStr "healthy").
Proof. eexists. split; [vm_compute; reflexivity | repeat split]. Qed.

(** ** One result per probe *)

(** C2. One run of the probes yields exactly one result per registered probe:
    the [checks] dict of the readiness endpoint has the three entries
    database, redis and tframex, in that order and no others, and so has the
    [components] dict of the detailed endpoint; an entry is marked failed
    exactly when its dependency faulted.  Every subset of the three probes
    can be the failing one. *)
Theorem one_result_per_probe :
  (forall w, exists db rd tf,
      result readiness_checks w =
        Ok [("database", db); ("redis", rd); ("tframex", tf)] /\
      (fst db = false <-> exists e, database_fault w e) /\
      (fst rd = false <-> exists e, redis_fault w e) /\
      (fst tf = false <-> exists e, tframex_fault w e)) /\
  (forall p w, exists body code components,
      result (detailed_health p) w = Ok (body, code) /\
      jget "components" body = Some components /\
      jkeys components = ["database"; "redis"; "tframex"] /\
      (jpath ["database"; "status"] components = Some (JStr "unhealthy")
         <-> exists e, database_fault w e) /\
      (jpath ["redis"; "status"] components = Some (JStr "unhealthy")
         <-> exists e, redis_fault w e) /\
      (jpath ["tframex"; "status"] components = Some (JStr "unhealthy")
         <-> exists e, tframex_fault w e)) /\
  (forall db_down redis_down tframex_down : bool, exists w,
      ((exists e, database_fault w e) <-> db_down = true) /\
      ((exists e, redis_fault w e) <-> redis_down = true) /\
      ((exists e, tframex_fault w e) <-> tframex_down = true)).
Proof.
  split; [|split].
  - intros w. rewrite readiness_checks_run. eexists _, _, _.
    split; [reflexivity|]. cbn [fst].
    rewrite database_fault_iff, redis_fault_iff, tframex_fault_iff. tauto.
  - intros p w. rewrite detailed_health_run. eexists _, _, _.
    split; [reflexivity|]. split; [reflexivity|]. split; [reflexivity|].
    rewrite database_fault_iff, redis_fault_iff, tframex_fault_iff.
    cbn.
    destruct (probe_ok check_database_connection w),
             (probe_ok check_redis_connection w),
             (probe_ok check_tframex w);
      repeat split; intros; try reflexivity; try discriminate.
  - intros db_down redis_down tframex_down.
    exists (world_with db_down redis_down tframex_down).
    rewrite database_fault_iff, redis_fault_iff, tframex_fault_iff.
    destruct db_down, redis_down, tframex_down; vm_compute;
      repeat split; intros; try reflexivity; try discriminate.
Qed.

(** ** Keys of the per-component entries *)

(** C4, as the specification words it, fails: no entry is filed under the key
    registry.  With every dependency up, neither the readiness [checks] nor
    the detailed [components] has that key, and their key lists differ from
    database, redis, registry. *)
Lemma registry_key_is_absent :
  exists body code checks body' code' components,
    result readiness world_up = Ok (body, code) /\
    jget "checks" body = Some checks /\
    jget "registry" checks = None /\
    jkeys checks <> ["database"; "redis"; "registry"] /\
    result (detailed_health (mkProcess 0)) world_up = Ok (body', code') /\
    jget "components" body' = Some components /\
    jget "registry" components = None /\
    jkeys components <> ["database"; "redis"; "registry"].
Proof.
  eexists _, _, _, _, _, _.
  split; [vm_compute; reflexivity|].
  split; [reflexivity|]. split; [reflexivity|]. split; [discriminate|].
  split; [vm_compute; reflexivity|].
  split; [reflexivity|]. split; [reflexivity|]. discriminate.
Qed.

(** C4, amended.  The per-component entries appear under exactly the keys
    database, redis and tframex.  Each carries a status, "pass" or "fail" in
    the readiness response and "healthy" or "unhealthy" in the detailed one,
    and a message. *)
Theorem component_entries_keys (p : Process) (w : World) :
  (exists body code checks,
     result readiness w = Ok (body, code) /\
     jget "checks" body = Some checks /\
     jkeys checks = ["database"; "redis"; "tframex"] /\
     Forall (fun name =>
               exists st msg,
                 jpath [name; "status"] checks = Some (JStr st) /\
                 (st = "pass" \/ st = "fail") /\
                 jpath [name; "message"] checks = Some (JStr msg))
            (jkeys checks)) /\
  (exists body code components,
     result (detailed_health p) w = Ok (body, code) /\
     jget "components" body = Some components /\
     jkeys components = ["database"; "redis"; "tframex"] /\
     Forall (fun name =>
               exists st msg,
                 jpath [name; "status"] components = Some (JStr st) /\
                 (st = "healthy" \/ st = "unhealthy") /\
                 jpath [name; "message"] components = Some (JStr msg))
            (jkeys components)).
Proof.
  split.
  - rewrite readiness_run. eexists _, _, _.
    split; [reflexivity|]. split; [reflexivity|]. split; [reflexivity|].
    cbn [jkeys map fst].
    repeat constructor; eexists _, _; cbn;
      (split; [reflexivity | split; [|reflexivity]]).
    + destruct (probe_ok check_database_connection w); auto.
    + destruct (probe_ok check_redis_connection w); auto.
    + destruct (probe_ok check_tframex w); auto.
  - rewrite detailed_health_run. eexists _, _, _.
    split; [reflexivity|]. split; [reflexivity|]. split; [reflexivity|].
    cbn [jkeys map fst].
    repeat constructor; eexists _, _; cbn;
      (split; [reflexivity | split; [|reflexivity]]).
    + destruct (probe_ok check_database_connection w); auto.
    + destruct (probe_ok check_redis_connection w); auto.
    + destruct (probe_ok check_tframex w); auto.
Qed.

(** ** Liveness *)

(** C6. The liveness endpoint answers 200 with status "alive" in every
    world.  The only call it makes outside the module reads the clock for
    the timestamp, so no probe runs, and two worlds that show the same
    timestamp get the same answer whatever their database, cache and
    registry do. *)
Theorem liveness_ignores_dependencies (w w' : World) :
  result liveness w =
    Ok (JDict [("status", JStr "alive");
               ("timestamp", JStr (utcnow_isoformat w))], 200) /\
  trace liveness w = [EvUtcnow] /\
  (utcnow_isoformat w' = utcnow_isoformat w -> liveness w' = liveness w).
Proof.
  split; [reflexivity|]. split; [reflexivity|].
  intros H. unfold liveness, utcnow_iso, bind, call, ret. now rewrite H.
Qed.

(** All dependencies down against all up, at the same timestamp. *)
Lemma liveness_ignores_dependencies_witness :
  liveness (world_with true true true) = liveness world_up.
Proof.
  apply (liveness_ignores_dependencies world_up (world_with true true true)).
  reflexivity.
Defined.

(** ** Metrics *)

Lemma result_with_ {A} (enter : M Connection) (body : Connection -> M A) w :
  result (with_ enter body) w =
  match result enter w with
  | Raise e => Raise e
  | Ok c =>
      match exit_ c with
      | Ok _ => result (body c) w
      | Raise e' => Raise e'
      end
  end.
Proof.
  unfold result, with_. destruct (enter w) as [t1 [c|e]]; cbn; [|reflexivity].
  destruct (body c w) as [t2 r]. destruct (exit_ c); reflexivity.
Qed.

Lemma execute_scalar_result session sql w :
  result (execute_scalar session sql) w = scalar_of session sql.
Proof.
  unfold execute_scalar, scalar_of. rewrite result_bind. unfold method at 1.
  unfold result at 1. cbn [snd]. destruct (execute_ session sql); reflexivity.
Qed.

Lemma db_metrics_body_result w :
  result db_metrics_body w =
  match LocalSession w with
  | Raise e => Raise e
  | Ok s =>
      match exit_ s with
      | Raise e => Raise e
      | Ok _ =>
          match scalar_of s count_projects with
          | Raise e => Raise e
          | Ok n =>
              match scalar_of s count_flows with
              | Raise e => Raise e
              | Ok m =>
                  match scalar_of s count_users with
                  | Raise e => Raise e
                  | Ok k => Ok (JDict [("projects", n); ("flows", m); ("users", k)])
                  end
              end
          end
      end
  end.
Proof.
  unfold db_metrics_body. rewrite result_bind, result_with_.
  change (result (call EvLocalSession LocalSession) w) with (LocalSession w).
  destruct (LocalSession w) as [s|e]; [|reflexivity].
  rewrite result_bind, execute_scalar_result.
  destruct (scalar_of s count_projects) as [n|e]; [|destruct (exit_ s); reflexivity].
  rewrite result_bind, execute_scalar_result.
  destruct (scalar_of s count_flows) as [m|e]; [|destruct (exit_ s); reflexivity].
  rewrite result_bind, execute_scalar_result.
  destruct (scalar_of s count_users) as [k|e]; destruct (exit_ s); reflexivity.
Qed.

Lemma db_metrics_body_fault w e :
  metrics_fault w e -> result db_metrics_body w = Raise e.
Proof.
  rewrite db_metrics_body_result.
  intros [e' H | s e' H1 H2 | s e' H1 H2 H3 | s n e' H1 H2 H3 H4
         | s n m e' H1 H2 H3 H4 H5];
    rewrite ?H, ?H1, ?H2, ?H3, ?H4, ?H5; reflexivity.
Qed.

Lemma db_metrics_absent w e : metrics_fault w e -> db_metrics_of w = JNull.
Proof.
  intros H. unfold db_metrics_of, get_db_metrics.
  now rewrite result_try_except, (db_metrics_body_fault w e H).
Qed.

Lemma probes_ignore_session w s :
  all_probes_ok (with_LocalSession w s) = all_probes_ok w.
Proof.
  unfold all_probes_ok, probe_ok.
  replace (result check_redis_connection (with_LocalSession w s))
    with (result check_redis_connection w).
  - reflexivity.
  - unfold check_redis_connection.
    rewrite !guarded_probe_result, !redis_body_result. reflexivity.
Qed.

(** C5. A fault in the metrics queries of the detailed endpoint does not
    propagate: the endpoint still returns, the metrics field of the database
    component is null, and the status code is the one the probes decide, 200
    when all three pass and 503 otherwise, the same as with any other
    behaviour of the session, a succeeding one included. *)
Theorem metrics_fault_leaves_status_code
    (p : Process) (w : World) (e : PyException) (s : outcome Connection) :
  metrics_fault w e ->
  exists body code body' code',
    result (detailed_health p) w = Ok (body, code) /\
    jpath ["components"; "database"; "metrics"] body = Some JNull /\
    code = (if all_probes_ok w then 200 else 503) /\
    result (detailed_health p) (with_LocalSession w s) = Ok (body', code') /\
    code' = code.
Proof.
  intros H. rewrite !detailed_health_run. cbv zeta.
  eexists _, _, _, _. split; [reflexivity|].
  split; [cbn; now rewrite (db_metrics_absent w e H)|].
  split; [reflexivity|]. split; [reflexivity|].
  now rewrite probes_ignore_session.
Qed.

(** The session factory refuses while the three probes pass: 200 either way. *)
Lemma metrics_fault_leaves_status_code_witness :
  exists body code body' code',
    result (detailed_health (mkProcess 0))
           (with_LocalSession world_up (Raise refused)) = Ok (body, code) /\
    jpath ["components"; "database"; "metrics"] body = Some JNull /\
    code = 200 /\
    result (detailed_health (mkProcess 0))
           (with_LocalSession (with_LocalSession world_up (Raise refused))
                              (Ok sample_connection)) = Ok (body', code') /\
    code' = code.
Proof.
  apply (metrics_fault_leaves_status_code (mkProcess 0)
           (with_LocalSession world_up (Raise refused)) refused
           (Ok sample_connection)).
  apply metrics_session_fault. reflexivity.
Defined.

(** With the session answering, the metrics are the three counts. *)
Example metrics_present_when_queries_succeed :
  db_metrics_of world_up =
  JDict [("projects", JInt 7); ("flows", JInt 7); ("users", JInt 7)].
Proof. reflexivity. Qed.

(** ** Arithmetic of the uptime *)

Lemma Qfloor_unique (n : Z) (x : Q) :
  (inject_Z n <= x)%Q -> (x < inject_Z (n + 1))%Q -> Qfloor x = n.
Proof.
  intros H1 H2.
  pose proof (Qfloor_le x) as H3. pose proof (Qlt_floor x) as H4.
  assert (inject_Z n < inject_Z (Qfloor x + 1))%Q as H5 by lra.
  assert (inject_Z (Qfloor x) < inject_Z (n + 1))%Q as H6 by lra.
  rewrite <- Zlt_Qlt in H5, H6. lia.
Qed.

Lemma floor_div_3600 (u : Q) :
  (3600 * inject_Z (Qfloor (u / 3600)) <= u
   /\ u < 3600 * inject_Z (Qfloor (u / 3600)) + 3600)%Q.
Proof.
  pose proof (Qfloor_le (u / 3600)) as H1.
  pose proof (Qlt_floor (u / 3600)) as H2.
  rewrite inject_Z_plus in H2. unfold Qdiv in *.
  change (/ 3600)%Q with (1 # 3600)%Q in *.
  change (inject_Z 1) with 1%Q in H2. lra.
Qed.

Lemma floor_div_60 (u : Q) :
  (60 * inject_Z (Qfloor (u / 60)) <= u
   /\ u < 60 * inject_Z (Qfloor (u / 60)) + 60)%Q.
Proof.
  pose proof (Qfloor_le (u / 60)) as H1.
  pose proof (Qlt_floor (u / 60)) as H2.
  rewrite inject_Z_plus in H2. unfold Qdiv in *.
  change (/ 60)%Q with (1 # 60)%Q in *.
  change (inject_Z 1) with 1%Q in H2. lra.
Qed.

Lemma py_int_integral (n : Z) : py_int (inject_Z n) = n.
Proof.
  unfold py_int. destruct (Qle_bool 0 (inject_Z n)).
  - apply Qfloor_Z.
  - apply Qceiling_Z.
Qed.

Lemma py_int_nonneg (x : Q) : (0 <= x)%Q -> py_int x = Qfloor x.
Proof.
  intros H. unfold py_int. apply Qle_bool_iff in H. now rewrite H.
Qed.

Lemma round_half_even_bounds (x : Q) :
  Qfloor x <= round_half_even x <= Qfloor x + 1.
Proof.
  unfold round_half_even.
  destruct (x - inject_Z (Qfloor x) ?= 1 # 2)%Q; [destruct (Z.even (Qfloor x))| |]; lia.
Qed.

Lemma round_half_even_monotone (x y : Q) :
  (x <= y)%Q -> round_half_even x <= round_half_even y.
Proof.
  intros H. pose proof (Qfloor_resp_le x y H) as Hf.
  destruct (Z.eq_dec (Qfloor x) (Qfloor y)) as [E | N].
  - unfold round_half_even. rewrite E.
    destruct (Qcompare_spec (x - inject_Z (Qfloor y)) (1 # 2)) as [H1 | H1 | H1];
    destruct (Qcompare_spec (y - inject_Z (Qfloor y)) (1 # 2)) as [H2 | H2 | H2];
      try lra; try lia; destruct (Z.even (Qfloor y)); lia.
  - pose proof (round_half_even_bounds x). pose proof (round_half_even_bounds y).
    lia.
Qed.

Lemma py_round_monotone (x y : Q) (ndigits : nat) :
  (x <= y)%Q -> (py_round x ndigits <= py_round y ndigits)%Q.
Proof.
  intros H. unfold py_round.
  set (scale := Z.to_pos (10 ^ Z.of_nat ndigits)).
  assert (x * inject_Z (Zpos scale) <= y * inject_Z (Zpos scale))%Q as Hs.
  { apply Qmult_le_compat_r; [exact H|]. unfold Qle; simpl; lia. }
  apply round_half_even_monotone in Hs.
  unfold Qle; simpl. nia.
Qed.

Lemma health_run p w :
  result (health p) w =
  Ok (JDict [
        ("status", JStr "healthy");
        ("timestamp", JStr (utcnow_isoformat w));
        ("uptime_seconds", JFloat (py_round (time_time w - START_TIME p) 2));
        ("version", JStr "1.0.0");
        ("service", JStr "prossima-ai-backend");
        ("company", JStr "Prossimagen Technologies")], 200).
Proof. reflexivity. Qed.

(** C7. Within one process, [uptime_seconds] does not decrease from one call
    to a later one.  The start time is read once, when the module is
    imported, and the handlers only read it: for two calls of the basic
    health endpoint in the same process, the second at a time not earlier
    than the first, the second [uptime_seconds] is at least the first.  The
    [uptime.seconds] of the detailed endpoint behaves the same. *)
Theorem uptime_seconds_monotone (w0 w1 w2 : World) :
  (time_time w1 <= time_time w2)%Q ->
  exists p b1 c1 u1 b2 c2 u2,
    result import_module w0 = Ok p /\
    START_TIME p = time_time w0 /\
    result (health p) w1 = Ok (b1, c1) /\
    jget "uptime_seconds" b1 = Some (JFloat u1) /\
    result (health p) w2 = Ok (b2, c2) /\
    jget "uptime_seconds" b2 = Some (JFloat u2) /\
    (u1 <= u2)%Q /\
    exists d1 k1 d2 k2,
      result (detailed_health p) w1 = Ok (d1, k1) /\
      jpath ["uptime"; "seconds"] d1 = Some (JFloat u1) /\
      result (detailed_health p) w2 = Ok (d2, k2) /\
      jpath ["uptime"; "seconds"] d2 = Some (JFloat u2).
Proof.
  intros H. exists (mkProcess (time_time w0)).
  rewrite !health_run, !detailed_health_run. cbv zeta.
  eexists _, _, _, _, _, _.
  split; [reflexivity|]. split; [reflexivity|].
  split; [reflexivity|]. split; [reflexivity|].
  split; [reflexivity|]. split; [reflexivity|].
  split.
  - apply py_round_monotone. cbn [START_TIME]. lra.
  - eexists _, _, _, _. repeat split; reflexivity.
Qed.

(** Two calls five milliseconds apart, 3725 seconds after the start. *)
Lemma uptime_seconds_monotone_witness :
  exists u1 u2,
    (exists b c, result (health (mkProcess (1000 # 1)))
                        (at_time world_up (4725 # 1)) = Ok (b, c) /\
                 jget "uptime_seconds" b = Some (JFloat u1)) /\
    (exists b c, result (health (mkProcess (1000 # 1)))
                        (at_time world_up (4725005 # 1000)) = Ok (b, c) /\
                 jget "uptime_seconds" b = Some (JFloat u2)) /\
    (u1 <= u2)%Q.
Proof.
  destruct (uptime_seconds_monotone world_up
              (at_time world_up (4725 # 1))
              (at_time world_up (4725005 # 1000)))
    as (p & b1 & c1 & u1 & b2 & c2 & u2 & Hp & Hs & H1 & G1 & H2 & G2 & Hle & _).
  - unfold Qle; simpl; lia.
  - injection Hp as <-.
    exists u1, u2. split; [|split]; eauto.
Defined.

Lemma hms_bounds (u : Q) (h m q s : Z) :
  h = Qfloor (u / 3600) ->
  m = Qfloor ((u - 3600 * inject_Z h) / 60) ->
  q = Qfloor (u / 60) ->
  s = Qfloor (u - 60 * inject_Z q) ->
  (0 <= u)%Q ->
  0 <= h /\ 0 <= m < 60 /\ 0 <= s < 60 /\
  (inject_Z (3600 * h + 60 * m + s) <= u)%Q /\
  (u < inject_Z (3600 * h + 60 * m + s) + 1)%Q /\
  (0 <= u - 60 * inject_Z q)%Q.
Proof.
  intros Hh Hm Hq Hs Hu.
  pose proof (floor_div_3600 u) as [Ha Hb]. rewrite <- Hh in Ha, Hb.
  pose proof (floor_div_60 (u - 3600 * inject_Z h)) as [Hc Hd].
  rewrite <- Hm in Hc, Hd.
  assert (q = 60 * h + m) as Hq'.
  { rewrite Hq. apply Qfloor_unique.
    - rewrite inject_Z_plus, inject_Z_mult. unfold Qdiv.
      change (/ 60)%Q with (1 # 60)%Q. change (inject_Z 60) with 60%Q. lra.
    - rewrite !inject_Z_plus, inject_Z_mult. unfold Qdiv.
      change (/ 60)%Q with (1 # 60)%Q. change (inject_Z 60) with 60%Q.
      change (inject_Z 1) with 1%Q. lra. }
  pose proof (Qfloor_le (u - 60 * inject_Z q)) as He.
  pose proof (Qlt_floor (u - 60 * inject_Z q)) as Hf.
  rewrite <- Hs in He, Hf. rewrite inject_Z_plus in Hf.
  change (inject_Z 1) with 1%Q in Hf.
  assert (inject_Z q == 60 * inject_Z h + inject_Z m)%Q as Hq''.
  { rewrite Hq', inject_Z_plus, inject_Z_mult. reflexivity. }
  assert (-1 < inject_Z h)%Q as H0 by lra.
  assert (-1 < inject_Z m /\ inject_Z m < 60)%Q as [M0 M1] by lra.
  assert (-1 < inject_Z s /\ inject_Z s < 60)%Q as [S0 S1] by lra.
  change (-1)%Q with (inject_Z (-1)) in H0, M0, S0.
  change 60%Q with (inject_Z 60) in M1, S1.
  rewrite <- Zlt_Qlt in H0, M0, M1, S0, S1.
  split; [lia|]. split; [lia|]. split; [lia|].
  rewrite !inject_Z_plus, !inject_Z_mult.
  change (inject_Z 3600) with 3600%Q. change (inject_Z 60) with 60%Q.
  repeat split; lra.
Qed.

(** C8. For a non-negative uptime [u] the detailed endpoint writes
    [human_readable] as "<H>h <M>m <S>s" with [H = floor(u / 3600)],
    [M = floor((u mod 3600) / 60)] and [S = floor(u mod 60)]; then
    [0 <= M < 60], [0 <= S < 60], and [u] is [3600 H + 60 M + S] plus a
    fraction below one second. *)
Theorem human_readable_decomposition (p : Process) (w : World) :
  let u := (time_time w - START_TIME p)%Q in
  let H := Qfloor (u / 3600) in
  let M := Qfloor ((u - 3600 * inject_Z (Qfloor (u / 3600))) / 60) in
  let S := Qfloor (u - 60 * inject_Z (Qfloor (u / 60))) in
  (0 <= u)%Q ->
  (exists body code,
     result (detailed_health p) w = Ok (body, code) /\
     jpath ["uptime"; "human_readable"] body =
       Some (JStr (str_of_int H ++ "h " ++ str_of_int M ++ "m " ++
                   str_of_int S ++ "s"))) /\
  0 <= H /\ 0 <= M < 60 /\ 0 <= S < 60 /\
  (inject_Z (3600 * H + 60 * M + S) <= u)%Q /\
  (u < inject_Z (3600 * H + 60 * M + S) + 1)%Q.
Proof.
  intros u H M S Hu.
  destruct (hms_bounds u H M (Qfloor (u / 60)) S) as (H0 & HM & HS & Hlo & Hhi & Hr);
    try reflexivity; try exact Hu.
  split; [|tauto].
  rewrite detailed_health_run. cbv zeta. eexists _, _.
  split; [reflexivity|]. cbn [jpath jget assoc String.eqb Ascii.eqb Bool.eqb].
  fold u. unfold human_readable.
  unfold py_floordiv at 1. rewrite py_int_integral.
  unfold py_floordiv at 1. rewrite py_int_integral.
  rewrite py_int_nonneg; [reflexivity | exact Hr].
Qed.

(** An uptime of 3725.5 seconds reads 1h 2m 5s. *)
Lemma human_readable_decomposition_witness :
  exists body code,
    result (detailed_health (mkProcess (1000 # 1)))
           (at_time world_up (9451 # 2)) = Ok (body, code) /\
    jpath ["uptime"; "human_readable"] body = Some (JStr "1h 2m 5s").
Proof.
  destruct (human_readable_decomposition (mkProcess (1000 # 1))
              (at_time world_up (9451 # 2)))
    as [(body & code & Hr & Hh) _].
  - vm_compute. discriminate.
  - exists body, code. split; [exact Hr | exact Hh].
Defined.

Example human_readable_zero : human_readable 0 = "0h 0m 0s".
Proof. reflexivity. Qed.

Example human_readable_day : human_readable (360005 # 4) = "25h 0m 1s".
Proof. reflexivity. Qed.

(** ** The storage descriptor *)

Lemma prefix_iff (s1 s2 : string) :
  String.prefix s1 s2 = true <-> exists post, s2 = s1 ++ post.
Proof.
  revert s2. induction s1 as [|a s1 IH]; intros s2.
  - split; [intros _; now exists s2 | intros _; destruct s2; reflexivity].
  - destruct s2 as [|b s2]; simpl.
    + split; [discriminate | intros [post H]; discriminate].
    + destruct (ascii_dec a b) as [-> | N].
      * rewrite IH. split; intros [post H]; exists post.
        -- now rewrite H.
        -- now injection H.
      * split; [discriminate|]. intros [post H]. injection H as H1 H2.
        now elim N.
Qed.

Lemma contains_empty (needle : string) :
  contains needle "" = String.prefix needle "".
Proof. simpl. now destruct needle. Qed.

Lemma contains_cons (needle : string) (c : ascii) (hay : string) :
  contains needle (String c hay) =
  if String.prefix needle (String c hay) then true else contains needle hay.
Proof. reflexivity. Qed.

Lemma contains_iff (needle hay : string) :
  contains needle hay = true <-> exists pre post, hay = pre ++ needle ++ post.
Proof.
  induction hay as [|c hay IH].
  - rewrite contains_empty, prefix_iff. split.
    + intros [post P]. now exists "", post.
    + intros (pre & post & H). destruct pre as [|a pre]; [|discriminate].
      now exists post.
  - rewrite contains_cons.
    destruct (String.prefix needle (String c hay)) eqn:P.
    + split; [intros _ | intros _; reflexivity].
      apply prefix_iff in P. destruct P as [post P]. now exists "", post.
    + rewrite IH. split.
      * intros (pre & post & H). exists (String c pre), post. simpl. now rewrite H.
      * intros (pre & post & H). destruct pre as [|a pre]; simpl in H.
        -- assert (String.prefix needle (String c hay) = true) as P'
             by (apply prefix_iff; now exists post).
           congruence.
        -- injection H as _ H. now exists pre, post.
Qed.

(** C10. The [database_url] descriptor of the detailed endpoint is
    "postgresql" when DATABASE_URL is set to a value in which the substring
    "postgresql" occurs, and "sqlite" in every other case: the variable
    unset, or set to anything without that substring. *)
Theorem database_url_descriptor (p : Process) (w : World) :
  exists body code kind,
    result (detailed_health p) w = Ok (body, code) /\
    jpath ["environment"; "database_url"] body = Some (JStr kind) /\
    (kind = "postgresql" <->
       exists url pre post,
         environ w "DATABASE_URL" = Some url /\
         url = pre ++ "postgresql" ++ post) /\
    (kind = "sqlite" <->
       ~ exists url pre post,
           environ w "DATABASE_URL" = Some url /\
           url = pre ++ "postgresql" ++ post).
Proof.
  rewrite detailed_health_run. cbv zeta. eexists _, _, _.
  split; [reflexivity|]. split; [reflexivity|].
  unfold database_url_kind, env_or.
  assert ((exists url pre post,
              environ w "DATABASE_URL" = Some url /\
              url = pre ++ "postgresql" ++ post) <->
          contains "postgresql"
            match environ w "DATABASE_URL" with Some s => s | None => "" end
          = true) as E.
  { rewrite contains_iff. destruct (environ w "DATABASE_URL") as [v|].
    - split.
      + intros (url & pre & post & H1 & H2). injection H1 as <-. eauto.
      + intros (pre & post & H). eauto 6.
    - split.
      + intros (url & pre & post & H1 & H2). discriminate.
      + intros (pre & post & H). destruct pre; discriminate. }
  rewrite E.
  destruct (contains "postgresql" _); split; split; intros; try reflexivity;
    try discriminate; try congruence.
Qed.

Example database_url_in_response :
  exists body code,
    result (detailed_health (mkProcess 0))
           (with_environ world_up
              (fun name => if String.eqb name "DATABASE_URL"
                           then Some "postgresql://app@db:5432/builder"
                           else None)) = Ok (body, code) /\
    jpath ["environment"; "database_url"] body = Some (JStr "postgresql").
Proof. eexists _, _. split; [vm_compute; reflexivity | reflexivity]. Qed.

Example database_url_unset :
  exists body code,
    result (detailed_health (mkProcess 0)) world_up = Ok (body, code) /\
    jpath ["environment"; "database_url"] body = Some (JStr "sqlite").
Proof. eexists _, _. split; [vm_compute; reflexivity | reflexivity]. Qed.

Example database_url_postgres :
  database_url_kind "postgresql+psycopg2://user@db:5432/app" = "postgresql".
Proof. reflexivity. Qed.

Example database_url_mysql :
  database_url_kind "mysql://user@db/app" = "sqlite".
Proof. reflexivity. Qed.

Example database_url_postgres_scheme :
  database_url_kind "postgres://user@db/app" = "sqlite".
Proof. reflexivity. Qed.

(** ** Timeouts *)

Lemma database_trace w :
  trace check_database_connection w =
  match engine_connect w with
  | Raise _ => [EvEngineConnect]
  | Ok c =>
      ([EvEngineConnect; EvExecute "SELECT 1"] ++
       match execute_ c "SELECT 1" with
       | Ok _ => [EvFetchone]
       | Raise _ => []
       end ++ [EvExit])%list
  end.
Proof.
  unfold trace, check_database_connection, check_database_connection_body,
    try_except, bind, with_, call, method, ret.
  destruct (engine_connect w) as [c|e]; cbn; [|reflexivity].
  destruct (execute_ c "SELECT 1") as [r|e]; cbn.
  - destruct (fetchone_ r); cbn; destruct (exit_ c); reflexivity.
  - destruct (exit_ c); reflexivity.
Qed.

Lemma tframex_trace w :
  trace check_tframex w =
  (EvGetApp ::
   match get_tframex_app_instance w with
   | Raise _ => []
   | Ok app =>
       EvAttr "_agents" ::
       match _agents app with
       | Raise _ => []
       | Ok _ => [EvAttr "_tools"]
       end
   end)%list.
Proof.
  unfold trace, check_tframex, try_except, bind, call, method, ret.
  destruct (get_tframex_app_instance w) as [app|e]; cbn; [|reflexivity].
  destruct (_agents app) as [ags|e]; cbn; [|reflexivity].
  destruct (_tools app); reflexivity.
Qed.

Lemma redis_trace w :
  trace check_redis_connection w =
  ([EvGetenv "REDIS_HOST"; EvGetenv "REDIS_PORT"] ++
   match redis_port w with
   | Raise _ => []
   | Ok p =>
       [EvGetenv "REDIS_PASSWORD"; EvRedis (redis_args w p)] ++
       match redis_Redis w (redis_args w p) with
       | Raise _ => []
       | Ok _ => [EvPing]
       end
   end)%list.
Proof.
  unfold trace, check_redis_connection, check_redis_connection_body,
    redis_port_of_env, getenv_default, getenv, try_except, bind, call, method,
    ret, redis_port, redis_args.
  cbn.
  destruct (environ w "REDIS_PORT") as [s|]; cbn.
  - destruct (int_of_str w s) as [p|e]; cbn; [|reflexivity].
    destruct (redis_Redis w _) as [r|e]; cbn; [|reflexivity].
    destruct (ping_ r); reflexivity.
  - destruct (redis_Redis w _) as [r|e]; cbn; [|reflexivity].
    destruct (ping_ r); reflexivity.
Qed.




(** * Further properties of the module *)

(** ** Traces in closed form *)

Lemma trace_bind {A B} (m : M A) (k : A -> M B) (w : World) :
  trace (bind m k) w =
  (trace m w ++ match result m w with
                | Ok a => trace (k a) w
                | Raise _ => []
                end)%list.
Proof.
  unfold trace, result, bind. destruct (m w) as [t1 [a|e]]; simpl.
  - destruct (k a w); reflexivity.
  - now rewrite app_nil_r.
Qed.

Lemma details_trace w :
  trace get_tframex_details w = trace check_tframex w.
Proof.
  rewrite tframex_trace.
  unfold trace, get_tframex_details, try_except, bind, call, method, ret.
  destruct (get_tframex_app_instance w) as [app|e]; cbn; [|reflexivity].
  destruct (_agents app) as [ags|e]; cbn; [|reflexivity].
  destruct (_tools app); reflexivity.
Qed.

(** The calls of one [session.execute(text(sql)).scalar()]. *)
Lemma execute_scalar_trace session sql w :
  trace (execute_scalar session sql) w =
  EvExecute sql :: match execute_ session sql with
                   | Ok _ => [EvScalar]
                   | Raise _ => []
                   end.
Proof.
  unfold trace, execute_scalar, bind, method.
  destruct (execute_ session sql); reflexivity.
Qed.

Lemma readiness_trace w :
  trace readiness w =
  (trace check_database_connection w ++ trace check_redis_connection w ++
   trace check_tframex w ++ [EvUtcnow])%list.
Proof.
  unfold readiness. rewrite trace_bind, readiness_checks_run.
  unfold readiness_checks.
  rewrite trace_bind, database_returns.
  rewrite trace_bind, redis_returns.
  rewrite trace_bind, tframex_returns.
  cbn [trace fst ret]. rewrite <- !app_assoc. reflexivity.
Qed.

Lemma metrics_trace w :
  trace get_db_metrics w =
  EvLocalSession ::
  match LocalSession w with
  | Raise _ => []
  | Ok s =>
      let query sql rest :=
        EvExecute sql ::
        match execute_ s sql with
        | Raise _ => []
        | Ok r => EvScalar :: match scalar_ r with
                              | Raise _ => []
                              | Ok _ => rest
                              end
        end in
      (query count_projects (query count_flows (query count_users []))
       ++ [EvExit])%list
  end.
Proof.
  unfold trace, get_db_metrics, db_metrics_body, try_except, bind, with_, call,
    execute_scalar, method, ret.
  destruct (LocalSession w) as [s|e]; cbn; [|reflexivity].
  destruct (execute_ s count_projects) as [r1|e]; cbn;
    [destruct (scalar_ r1); cbn|]; try (destruct (exit_ s); reflexivity).
  destruct (execute_ s count_flows) as [r2|e]; cbn;
    [destruct (scalar_ r2); cbn|]; try (destruct (exit_ s); reflexivity).
  destruct (execute_ s count_users) as [r3|e]; cbn;
    [destruct (scalar_ r3); cbn|]; destruct (exit_ s); reflexivity.
Qed.

Lemma detailed_health_trace p w :
  trace (detailed_health p) w =
  (EvTime :: trace check_database_connection w ++
   trace check_redis_connection w ++ trace check_tframex w ++
   trace get_db_metrics w ++ trace get_tframex_details w ++
   [EvUtcnow; EvGetenv "FLASK_ENV"; EvGetenv "DATABASE_URL";
    EvGetenv "REDIS_HOST"])%list.
Proof.
  unfold detailed_health.
  rewrite trace_bind, time_now_result.
  rewrite trace_bind, database_returns.
  rewrite trace_bind, redis_returns.
  rewrite trace_bind, tframex_returns.
  rewrite trace_bind, get_db_metrics_returns.
  rewrite trace_bind, get_tframex_details_returns.
  reflexivity.
Qed.

Lemma count_app f (t1 t2 : list Event) :
  count f (t1 ++ t2) = (count f t1 + count f t2)%nat.
Proof. unfold count. now rewrite filter_app, length_app. Qed.

Lemma count_cons f ev (t : list Event) :
  count f (ev :: t) = ((if f ev then 1 else 0) + count f t)%nat.
Proof. unfold count. simpl. now destruct (f ev). Qed.

(** Case analysis on every outcome a trace in closed form depends on. *)
Ltac outcome_cases :=
  repeat match goal with
         | |- context [match ?x with Ok _ => _ | Raise _ => _ end] =>
             destruct x; cbn
         end.

(** ** The basic health endpoint *)

(** X1. The basic health endpoint never looks at a dependency: in every
    world it answers 200 with status "healthy", the only calls it makes
    outside the module read the two clocks, and two worlds that show the
    same clocks get the same answer, whatever their database, cache and
    registry do. *)
Theorem health_ignores_dependencies (p : Process) (w w' : World) :
  (exists body, result (health p) w = Ok (body, 200) /\
                jget "status" body = Some (JStr "healthy")) /\
  trace (health p) w = [EvTime; EvUtcnow] /\
  (time_time w' = time_time w ->
   utcnow_isoformat w' = utcnow_isoformat w ->
   health p w' = health p w).
Proof.
  split; [eexists; split; reflexivity|]. split; [reflexivity|].
  intros Ht Hu. unfold health, time_now, utcnow_iso, bind, call, ret.
  now rewrite Ht, Hu.
Qed.

(** Everything down against everything up, at the same instant. *)
Lemma health_ignores_dependencies_witness :
  health (mkProcess 0) (world_with true true true) = health (mkProcess 0) world_up.
Proof.
  apply (health_ignores_dependencies (mkProcess 0) world_up
           (world_with true true true)); reflexivity.
Defined.

(** ** How often the dependencies are called *)

(** X2. One readiness request runs every probe once, whatever the others
    do: it calls [engine.connect()] exactly once and
    [get_tframex_app_instance()] exactly once, builds the Redis client once
    when the port can be read and not at all otherwise, pings at most once,
    and never opens a session or reads [time.time()]. *)
Theorem readiness_runs_each_probe_once (w : World) :
  count is_engine_connect (trace readiness w) = 1%nat /\
  count is_get_app (trace readiness w) = 1%nat /\
  count is_redis_new (trace readiness w) =
    match redis_port w with Ok _ => 1%nat | Raise _ => 0%nat end /\
  (count is_ping (trace readiness w) <= 1)%nat /\
  count is_local_session (trace readiness w) = 0%nat /\
  count is_time (trace readiness w) = 0%nat.
Proof.
  rewrite readiness_trace, database_trace, redis_trace, tframex_trace.
  outcome_cases; repeat split; cbn; lia.
Qed.

(** X9. One detailed request calls [engine.connect()] once, opens one
    session for the metrics whether or not the database probe passed, reads
    [time.time()] once, and asks for the TFrameX application twice, once in
    the probe and once for the details; the Redis client is built once when
    the port can be read and not at all otherwise. *)
Theorem detailed_health_call_counts (p : Process) (w : World) :
  count is_engine_connect (trace (detailed_health p) w) = 1%nat /\
  count is_local_session (trace (detailed_health p) w) = 1%nat /\
  count is_get_app (trace (detailed_health p) w) = 2%nat /\
  count is_time (trace (detailed_health p) w) = 1%nat /\
  count is_redis_new (trace (detailed_health p) w) =
    match redis_port w with Ok _ => 1%nat | Raise _ => 0%nat end.
Proof.
  rewrite detailed_health_trace, details_trace, metrics_trace, database_trace,
    redis_trace, tframex_trace.
  cbv zeta.
  outcome_cases; repeat split; cbn; lia.
Qed.

(** ** Connections and sessions are released *)

(** X3. A connection or session that was opened is closed exactly once, also
    when a statement raised inside the [with] block, and nothing is closed
    when opening failed.  This holds for the database probe, for the metrics
    block, and so for whole readiness and detailed requests; when the
    database probe did connect, the close is the last call it makes. *)
Theorem opened_connections_are_closed (p : Process) (w : World) :
  let opened (o : outcome Connection) :=
    match o with Ok _ => 1%nat | Raise _ => 0%nat end in
  count is_exit (trace check_database_connection w) = opened (engine_connect w) /\
  count is_exit (trace get_db_metrics w) = opened (LocalSession w) /\
  count is_exit (trace readiness w) = opened (engine_connect w) /\
  count is_exit (trace (detailed_health p) w) =
    (opened (engine_connect w) + opened (LocalSession w))%nat /\
  (forall c, engine_connect w = Ok c ->
     exists t, trace check_database_connection w = (t ++ [EvExit])%list).
Proof.
  cbv zeta. split; [|split; [|split; [|split]]].
  - rewrite database_trace. outcome_cases; reflexivity.
  - rewrite metrics_trace. cbv zeta. outcome_cases; reflexivity.
  - rewrite readiness_trace, database_trace, redis_trace, tframex_trace.
    outcome_cases; reflexivity.
  - rewrite detailed_health_trace, details_trace, metrics_trace, database_trace,
      redis_trace, tframex_trace.
    cbv zeta. outcome_cases; reflexivity.
  - intros c H. rewrite database_trace, H.
    eexists. rewrite app_assoc. reflexivity.
Qed.

(** The query fails on an open connection, which is closed all the same. *)
Lemma opened_connections_are_closed_witness :
  exists t,
    trace check_database_connection
      (with_engine_connect world_up
         (Ok (mkConn (fun _ => Raise refused) (Ok tt)))) = (t ++ [EvExit])%list.
Proof.
  destruct (opened_connections_are_closed (mkProcess 0)
              (with_engine_connect world_up
                 (Ok (mkConn (fun _ => Raise refused) (Ok tt)))))
    as (_ & _ & _ & _ & H).
  apply (H (mkConn (fun _ => Raise refused) (Ok tt))). reflexivity.
Defined.

(** ** The cache probe at its edges *)

(** X4. A REDIS_PORT that [int()] rejects makes the cache probe fail with the
    text of that error before anything reaches the network: the password is
    not read, no client is built and nothing is pinged. *)
Theorem bad_redis_port_fails_before_connecting
    (w : World) (s : string) (e : PyException) :
  environ w "REDIS_PORT" = Some s ->
  int_of_str w s = Raise e ->
  result check_redis_connection w = Ok (false, str e) /\
  trace check_redis_connection w =
    [EvGetenv "REDIS_HOST"; EvGetenv "REDIS_PORT"].
Proof.
  intros Hs He.
  assert (redis_port w = Raise e) as Hp by (unfold redis_port; now rewrite Hs).
  split.
  - apply redis_fault_result. now apply redis_port_fault.
  - rewrite redis_trace, Hp. reflexivity.
Qed.

Lemma bad_redis_port_fails_before_connecting_witness :
  result check_redis_connection world_bad_port =
    Ok (false, "invalid literal for int() with base 10") /\
  trace check_redis_connection world_bad_port =
    [EvGetenv "REDIS_HOST"; EvGetenv "REDIS_PORT"].
Proof.
  apply (bad_redis_port_fails_before_connecting world_bad_port "abc" bad_literal);
    reflexivity.
Defined.

(** X5. The cache probe does not look at what [ping()] returns: once the
    client is built and the ping comes back without raising, the verdict is
    [(True, "Connected")], also when the value returned is [False]. *)
Theorem redis_probe_ignores_ping_value
    (w : World) (p : Z) (r : RedisClient) (b : bool) :
  redis_port w = Ok p ->
  redis_Redis w (redis_args w p) = Ok r ->
  ping_ r = Ok b ->
  result check_redis_connection w = Ok (true, "Connected").
Proof.
  intros Hp Hr Hb. apply redis_sound_result. exists p, r, b. auto.
Qed.

Lemma redis_probe_ignores_ping_value_witness :
  result check_redis_connection world_ping_false = Ok (true, "Connected").
Proof.
  apply (redis_probe_ignores_ping_value world_ping_false 6379
           (mkRedis (Ok false)) false); reflexivity.
Defined.

(** ** The two aggregate endpoints side by side *)

(** X6. In one world the readiness and the detailed endpoint agree: they
    return the same status code, "ready" goes with "healthy", and for each of
    database, redis and tframex the entry passes in one exactly when it is
    healthy in the other, with the same message. *)
Theorem readiness_and_detailed_agree (p : Process) (w : World) :
  exists rbody rcode dbody dcode,
    result readiness w = Ok (rbody, rcode) /\
    result (detailed_health p) w = Ok (dbody, dcode) /\
    rcode = dcode /\
    (jget "status" rbody = Some (JStr "ready")
       <-> jget "status" dbody = Some (JStr "healthy")) /\
    Forall (fun name =>
              (jpath ["checks"; name; "status"] rbody = Some (JStr "pass")
                 <-> jpath ["components"; name; "status"] dbody
                       = Some (JStr "healthy")) /\
              jpath ["checks"; name; "message"] rbody
                = jpath ["components"; name; "message"] dbody /\
              jpath ["checks"; name; "message"] rbody <> None)
           ["database"; "redis"; "tframex"].
Proof.
  rewrite readiness_run, detailed_health_run. cbv zeta.
  eexists _, _, _, _.
  split; [reflexivity|]. split; [reflexivity|]. split; [reflexivity|].
  split.
  - cbn. destruct (all_probes_ok w); split; intros; try reflexivity; discriminate.
  - repeat constructor; cbn; try discriminate.
    + destruct (probe_ok check_database_connection w); intros; try reflexivity;
        discriminate.
    + destruct (probe_ok check_database_connection w); intros; try reflexivity;
        discriminate.
    + destruct (probe_ok check_redis_connection w); intros; try reflexivity;
        discriminate.
    + destruct (probe_ok check_redis_connection w); intros; try reflexivity;
        discriminate.
    + destruct (probe_ok check_tframex w); intros; try reflexivity; discriminate.
    + destruct (probe_ok check_tframex w); intros; try reflexivity; discriminate.
Qed.

Lemma probe_fault_verdict (probe : M (bool * string)) w e :
  result probe w = Ok (false, str e) ->
  probe_ok probe w = false /\ probe_message probe w = str e.
Proof. intros H. unfold probe_ok, probe_message. now rewrite H. Qed.

(** X14. The text of the exception is what the operator reads: when a
    dependency faults with [e], both endpoints answer 503 and carry
    [str(e)] as the message of that component, marked "fail" in the
    readiness response and "unhealthy" in the detailed one. *)
Theorem fault_text_reaches_the_response (p : Process) (w : World) (e : PyException) :
  let reported name :=
    exists rbody dbody,
      result readiness w = Ok (rbody, 503) /\
      result (detailed_health p) w = Ok (dbody, 503) /\
      jpath ["checks"; name] rbody =
        Some (JDict [("status", JStr "fail"); ("message", JStr (str e))]) /\
      jpath ["components"; name; "status"] dbody = Some (JStr "unhealthy") /\
      jpath ["components"; name; "message"] dbody = Some (JStr (str e)) in
  (database_fault w e -> reported "database") /\
  (redis_fault w e -> reported "redis") /\
  (tframex_fault w e -> reported "tframex").
Proof.
  cbv zeta. rewrite readiness_run, detailed_health_run. cbv zeta.
  unfold all_probes_ok.
  split; [|split]; intros H.
  - apply database_fault_result, probe_fault_verdict in H. destruct H as [-> ->].
    eexists _, _. repeat split; reflexivity.
  - apply redis_fault_result, probe_fault_verdict in H. destruct H as [-> ->].
    rewrite andb_false_r.
    eexists _, _. repeat split; reflexivity.
  - apply tframex_fault_result, probe_fault_verdict in H. destruct H as [-> ->].
    rewrite andb_false_r.
    eexists _, _. repeat split; reflexivity.
Qed.

(** The cache refuses connections. *)
Lemma fault_text_reaches_the_response_witness :
  exists rbody dbody,
    result readiness (world_with false true false) = Ok (rbody, 503) /\
    result (detailed_health (mkProcess 0)) (world_with false true false)
      = Ok (dbody, 503) /\
    jpath ["checks"; "redis"] rbody =
      Some (JDict [("status", JStr "fail");
                   ("message", JStr "Connection refused")]) /\
    jpath ["components"; "redis"; "status"] dbody = Some (JStr "unhealthy") /\
    jpath ["components"; "redis"; "message"] dbody
      = Some (JStr "Connection refused").
Proof.
  destruct (fault_text_reaches_the_response (mkProcess 0)
              (world_with false true false) refused) as (_ & H & _).
  apply H. apply (redis_client_fault _ 6379); reflexivity.
Defined.

(** ** Details and metrics of the detailed report *)

Lemma details_result w :
  tframex_details_of w =
  match get_tframex_app_instance w with
  | Raise _ => JNull
  | Ok app =>
      match _agents app with
      | Raise _ => JNull
      | Ok ags =>
          match _tools app with
          | Raise _ => JNull
          | Ok tls =>
              JDict [("agents", JList (map JStr ags));
                     ("tools", JList (map JStr tls));
                     ("patterns", JList [JStr "sequential"; JStr "parallel";
                                         JStr "router"; JStr "discussion"])]
          end
      end
  end.
Proof.
  unfold tframex_details_of, result, get_tframex_details, try_except, bind,
    call, method, ret.
  destruct (get_tframex_app_instance w) as [app|e]; cbn; [|reflexivity].
  destruct (_agents app) as [ags|e]; cbn; [|reflexivity].
  destruct (_tools app); reflexivity.
Qed.

(** X7. In the detailed report the tframex details are null exactly when the
    tframex component is unhealthy, the application answering the probe and
    the details block alike within one request.  When it answers, the
    details list the names of its agents and tools and the four patterns,
    and the numbers in the component's message are the lengths of those two
    lists. *)
Theorem tframex_details_follow_the_probe (p : Process) (w : World) :
  exists body code,
    result (detailed_health p) w = Ok (body, code) /\
    (jpath ["components"; "tframex"; "details"] body = Some JNull
       <-> jpath ["components"; "tframex"; "status"] body
             = Some (JStr "unhealthy")) /\
    (forall ags tls, tframex_sound w ags tls ->
       jpath ["components"; "tframex"; "details"] body =
         Some (JDict [("agents", JList (map JStr ags));
                      ("tools", JList (map JStr tls));
                      ("patterns", JList [JStr "sequential"; JStr "parallel";
                                          JStr "router"; JStr "discussion"])]) /\
       jpath ["components"; "tframex"; "message"] body =
         Some (JStr (str_of_int (Z.of_nat (List.length ags)) ++ " agents, " ++
                     str_of_int (Z.of_nat (List.length tls)) ++
                     " tools registered"))).
Proof.
  rewrite detailed_health_run. cbv zeta. eexists _, _.
  split; [reflexivity|]. cbn [jpath jget assoc String.eqb Ascii.eqb Bool.eqb].
  rewrite details_result. unfold probe_ok, probe_message.
  rewrite tframex_result. split.
  - destruct (get_tframex_app_instance w) as [app|]; [|tauto].
    destruct (_agents app); [|tauto].
    destruct (_tools app); [|tauto].
    split; discriminate.
  - intros ags tls (app & H1 & H2 & H3). rewrite H1, H2, H3.
    split; reflexivity.
Qed.

Lemma tframex_details_follow_the_probe_witness :
  exists body code,
    result (detailed_health (mkProcess 0)) world_up = Ok (body, code) /\
    jpath ["components"; "tframex"; "details"] body =
      Some (JDict [("agents", JList [JStr "planner"; JStr "coder"]);
                   ("tools", JList [JStr "search"]);
                   ("patterns", JList [JStr "sequential"; JStr "parallel";
                                       JStr "router"; JStr "discussion"])]) /\
    jpath ["components"; "tframex"; "message"] body =
      Some (JStr "2 agents, 1 tools registered").
Proof.
  destruct (tframex_details_follow_the_probe (mkProcess 0) world_up)
    as (body & code & Hr & _ & H).
  exists body, code. split; [exact Hr|].
  apply (H ["planner"; "coder"] ["search"]).
  exists sample_app. repeat split; reflexivity.
Defined.

Lemma metrics_cases w :
  (exists n m k, metrics_sound w n m k) \/ exists e, metrics_fault w e.
Proof.
  destruct (LocalSession w) as [s|e] eqn:Hs.
  2:{ right. exists e. now apply metrics_session_fault. }
  destruct (exit_ s) as [[]|e] eqn:Hx.
  2:{ right. exists e. eapply metrics_close_fault; eauto. }
  destruct (scalar_of s count_projects) as [n|e] eqn:H1.
  2:{ right. exists e. eapply metrics_projects_fault; eauto. }
  destruct (scalar_of s count_flows) as [m|e] eqn:H2.
  2:{ right. exists e. eapply metrics_flows_fault; eauto. }
  destruct (scalar_of s count_users) as [k|e] eqn:H3.
  2:{ right. exists e. eapply metrics_users_fault; eauto. }
  left. exists n, m, k, s. auto.
Qed.

Lemma db_metrics_present w n m k :
  metrics_sound w n m k ->
  db_metrics_of w = JDict [("projects", n); ("flows", m); ("users", k)].
Proof.
  intros (s & Hs & Hx & H1 & H2 & H3).
  unfold db_metrics_of, get_db_metrics.
  rewrite result_try_except, db_metrics_body_result, Hs, Hx, H1, H2, H3.
  reflexivity.
Qed.

(** X8. The metrics of the database component are null exactly when the
    metrics block faulted.  Otherwise they are a dict with the keys
    projects, flows and users, in that order, holding what the three count
    queries returned, a zero included. *)
Theorem metrics_null_only_on_fault (p : Process) (w : World) :
  exists body code metrics,
    result (detailed_health p) w = Ok (body, code) /\
    jpath ["components"; "database"; "metrics"] body = Some metrics /\
    (metrics = JNull <-> exists e, metrics_fault w e) /\
    (forall n m k, metrics_sound w n m k ->
       metrics = JDict [("projects", n); ("flows", m); ("users", k)]) /\
    (metrics <> JNull -> jkeys metrics = ["projects"; "flows"; "users"]).
Proof.
  rewrite detailed_health_run. cbv zeta. eexists _, _, _.
  split; [reflexivity|]. split; [reflexivity|].
  split; [|split].
  - split.
    + intros H. destruct (metrics_cases w) as [(n & m & k & Hs) | Hf]; [|exact Hf].
      rewrite (db_metrics_present w n m k Hs) in H. discriminate.
    + intros [e H]. now apply (db_metrics_absent w e).
  - apply db_metrics_present.
  - intros H. destruct (metrics_cases w) as [(n & m & k & Hs) | [e Hf]].
    + now rewrite (db_metrics_present w n m k Hs).
    + now rewrite (db_metrics_absent w e Hf) in H.
Qed.

(** All three tables are empty: the counts are zeros, not null. *)
Lemma metrics_null_only_on_fault_witness :
  exists body code,
    result (detailed_health (mkProcess 0))
           (with_LocalSession world_up
              (Ok (mkConn (fun _ => Ok (mkResult (Ok JNull) (Ok (JInt 0))))
                          (Ok tt)))) = Ok (body, code) /\
    jpath ["components"; "database"; "metrics"] body =
      Some (JDict [("projects", JInt 0); ("flows", JInt 0); ("users", JInt 0)]).
Proof.
  destruct (metrics_null_only_on_fault (mkProcess 0)
              (with_LocalSession world_up
                 (Ok (mkConn (fun _ => Ok (mkResult (Ok JNull) (Ok (JInt 0))))
                             (Ok tt)))))
    as (body & code & metrics & Hr & Hm & _ & H & _).
  exists body, code. split; [exact Hr|]. rewrite Hm. f_equal.
  apply H. eexists. repeat split; reflexivity.
Defined.

(** ** One dependency, one entry *)

Lemma redis_result_closed w :
  result check_redis_connection w =
  match redis_port w with
  | Raise e => Ok (false, str e)
  | Ok p =>
      match redis_Redis w (redis_args w p) with
      | Raise e => Ok (false, str e)
      | Ok r => match ping_ r with
                | Raise e => Ok (false, str e)
                | Ok _ => Ok (true, "Connected")
                end
      end
  end.
Proof.
  unfold check_redis_connection.
  rewrite guarded_probe_result, redis_body_result.
  destruct (redis_port w) as [p|]; [|reflexivity].
  destruct (redis_Redis w _) as [r|]; [|reflexivity].
  destruct (ping_ r); reflexivity.
Qed.

Lemma redis_verdict_same (w w' : World) :
  environ w' = environ w -> int_of_str w' = int_of_str w ->
  redis_Redis w' = redis_Redis w ->
  probe_ok check_redis_connection w' = probe_ok check_redis_connection w /\
  probe_message check_redis_connection w' = probe_message check_redis_connection w.
Proof.
  intros He Hi Hr. unfold probe_ok, probe_message.
  rewrite !redis_result_closed. unfold redis_port, redis_args.
  now rewrite He, Hi, Hr.
Qed.

Lemma database_result_closed w :
  result check_database_connection w =
  match engine_connect w with
  | Raise e => Ok (false, str e)
  | Ok c =>
      match exit_ c with
      | Raise e => Ok (false, str e)
      | Ok _ =>
          match execute_ c "SELECT 1" with
          | Raise e => Ok (false, str e)
          | Ok r => match fetchone_ r with
                    | Raise e => Ok (false, str e)
                    | Ok _ => Ok (true, "Connected")
                    end
          end
      end
  end.
Proof.
  unfold check_database_connection.
  rewrite guarded_probe_result. unfold check_database_connection_body.
  rewrite result_with_.
  change (result (call EvEngineConnect engine_connect) w) with (engine_connect w).
  destruct (engine_connect w) as [c|]; [|reflexivity].
  unfold result, bind, method, ret.
  destruct (execute_ c "SELECT 1") as [r|]; cbn.
  - destruct (fetchone_ r); cbn; destruct (exit_ c); reflexivity.
  - destruct (exit_ c); reflexivity.
Qed.

Lemma database_verdict_same (w w' : World) :
  engine_connect w' = engine_connect w ->
  probe_ok check_database_connection w' = probe_ok check_database_connection w /\
  probe_message check_database_connection w'
    = probe_message check_database_connection w.
Proof.
  intros H. unfold probe_ok, probe_message.
  rewrite !database_result_closed. now rewrite H.
Qed.

Lemma tframex_verdict_same (w w' : World) :
  get_tframex_app_instance w' = get_tframex_app_instance w ->
  probe_ok check_tframex w' = probe_ok check_tframex w /\
  probe_message check_tframex w' = probe_message check_tframex w /\
  tframex_details_of w' = tframex_details_of w.
Proof.
  intros H. unfold probe_ok, probe_message.
  rewrite !tframex_result, !details_result. now rewrite H.
Qed.

Lemma db_metrics_same (w w' : World) :
  LocalSession w' = LocalSession w -> db_metrics_of w' = db_metrics_of w.
Proof.
  intros H. unfold db_metrics_of, get_db_metrics.
  rewrite !result_try_except, !db_metrics_body_result. now rewrite H.
Qed.

(** X13. Each entry of the two reports depends on its own dependency only:
    with another database engine the redis and tframex entries stay as they
    were, with another Redis server the database and tframex entries do, and
    with another TFrameX application the database and redis entries do.  In
    the detailed report this includes the metrics and the details. *)
Theorem one_dependency_changes_one_entry
    (p : Process) (w : World) (c : outcome Connection)
    (f : RedisArgs -> outcome RedisClient) (a : outcome TFrameXApp) :
  let same (w' : World) (names : list string) :=
    exists rbody rcode rbody' rcode' dbody dcode dbody' dcode',
      result readiness w = Ok (rbody, rcode) /\
      result readiness w' = Ok (rbody', rcode') /\
      result (detailed_health p) w = Ok (dbody, dcode) /\
      result (detailed_health p) w' = Ok (dbody', dcode') /\
      Forall (fun name =>
                jpath ["checks"; name] rbody' = jpath ["checks"; name] rbody /\
                jpath ["checks"; name] rbody <> None /\
                jpath ["components"; name] dbody'
                  = jpath ["components"; name] dbody /\
                jpath ["components"; name] dbody <> None) names in
  same (with_engine_connect w c) ["redis"; "tframex"] /\
  same (with_redis_Redis w f) ["database"; "tframex"] /\
  same (with_tframex_app w a) ["database"; "redis"].
Proof.
  cbv zeta. rewrite !readiness_run, !detailed_health_run. cbv zeta.
  split; [|split]; eexists _, _, _, _, _, _, _, _;
    (split; [reflexivity|]); (split; [reflexivity|]);
    (split; [reflexivity|]); (split; [reflexivity|]).
  - destruct (redis_verdict_same w (with_engine_connect w c)) as [-> ->];
      try reflexivity.
    destruct (tframex_verdict_same w (with_engine_connect w c)) as (-> & -> & ->);
      try reflexivity.
    repeat constructor; cbn; try discriminate; reflexivity.
  - destruct (database_verdict_same w (with_redis_Redis w f)) as [-> ->];
      try reflexivity.
    destruct (tframex_verdict_same w (with_redis_Redis w f)) as (-> & -> & ->);
      try reflexivity.
    rewrite (db_metrics_same w (with_redis_Redis w f)); try reflexivity.
    repeat constructor; cbn; try discriminate; reflexivity.
  - destruct (database_verdict_same w (with_tframex_app w a)) as [-> ->];
      try reflexivity.
    destruct (redis_verdict_same w (with_tframex_app w a)) as [-> ->];
      try reflexivity.
    rewrite (db_metrics_same w (with_tframex_app w a)); try reflexivity.
    repeat constructor; cbn; try discriminate; reflexivity.
Qed.

(** ** The reported cache host *)

(** X10. The cache host the detailed report shows under
    [environment.redis_host] is the host the probe of the same request
    connected to: every Redis client built during the request was given
    that host. *)
Theorem reported_redis_host_is_probed_host
    (p : Process) (w : World) (args : RedisArgs) :
  In (EvRedis args) (trace (detailed_health p) w) ->
  exists body code,
    result (detailed_health p) w = Ok (body, code) /\
    jpath ["environment"; "redis_host"] body = Some (JStr (host args)).
Proof.
  intros H. rewrite detailed_health_run. cbv zeta. eexists _, _.
  split; [reflexivity|]. cbn [jpath jget assoc String.eqb Ascii.eqb Bool.eqb].
  revert H.
  rewrite detailed_health_trace, details_trace, metrics_trace, database_trace,
    redis_trace, tframex_trace.
  cbv zeta.
  outcome_cases; intros H;
    repeat (destruct H as [H | H]; try discriminate H);
    try contradiction; injection H as <-; reflexivity.
Qed.

Lemma reported_redis_host_is_probed_host_witness :
  exists body code,
    result (detailed_health (mkProcess 0)) world_up = Ok (body, code) /\
    jpath ["environment"; "redis_host"] body = Some (JStr "localhost").
Proof.
  apply (reported_redis_host_is_probed_host (mkProcess 0) world_up
           (redis_args world_up 6379)).
  vm_compute. tauto.
Defined.

(** ** More on the uptime *)

Lemma round_half_even_error (x : Q) :
  (x - (1 # 2) <= inject_Z (round_half_even x)
   /\ inject_Z (round_half_even x) <= x + (1 # 2))%Q.
Proof.
  pose proof (Qfloor_le x) as H1. pose proof (Qlt_floor x) as H2.
  rewrite inject_Z_plus in H2. change (inject_Z 1) with 1%Q in H2.
  unfold round_half_even.
  destruct (Qcompare_spec (x - inject_Z (Qfloor x)) (1 # 2)) as [H | H | H];
    [destruct (Z.even (Qfloor x))| |];
    rewrite ?inject_Z_plus; change (inject_Z 1) with 1%Q; lra.
Qed.

Lemma py_round_2_error (x : Q) :
  (x - (1 # 200) <= py_round x 2 /\ py_round x 2 <= x + (1 # 200))%Q.
Proof.
  unfold py_round. change (Z.to_pos (10 ^ Z.of_nat 2)) with 100%positive.
  pose proof (round_half_even_error (x * inject_Z 100)) as [H1 H2].
  rewrite (Qmake_Qdiv (round_half_even (x * inject_Z 100)) 100).
  unfold Qdiv. change (/ inject_Z 100)%Q with (1 # 100)%Q.
  change (inject_Z 100) with 100%Q in *. lra.
Qed.

(** X11. The uptime both endpoints report is the time elapsed since the
    import of the module, off by at most 0.005 seconds, and it is not
    negative unless the clock has stepped back behind the start time. *)
Theorem reported_uptime_is_elapsed_time (p : Process) (w : World) :
  exists hbody hcode dbody dcode u,
    result (health p) w = Ok (hbody, hcode) /\
    jget "uptime_seconds" hbody = Some (JFloat u) /\
    result (detailed_health p) w = Ok (dbody, dcode) /\
    jpath ["uptime"; "seconds"] dbody = Some (JFloat u) /\
    (time_time w - START_TIME p - (1 # 200) <= u)%Q /\
    (u <= time_time w - START_TIME p + (1 # 200))%Q /\
    ((START_TIME p <= time_time w)%Q -> (0 <= u)%Q).
Proof.
  rewrite health_run, detailed_health_run. cbv zeta.
  eexists _, _, _, _, _.
  split; [reflexivity|]. split; [reflexivity|].
  split; [reflexivity|]. split; [reflexivity|].
  pose proof (py_round_2_error (time_time w - START_TIME p)) as [H1 H2].
  split; [exact H1|]. split; [exact H2|].
  intros H.
  apply Qle_trans with (py_round 0 2); [discriminate|].
  apply py_round_monotone. lra.
Qed.

(** Half a second after the import. *)
Lemma reported_uptime_is_elapsed_time_witness :
  exists hbody hcode u,
    result (health (mkProcess (1000 # 1))) (at_time world_up (2001 # 2))
      = Ok (hbody, hcode) /\
    jget "uptime_seconds" hbody = Some (JFloat u) /\
    (0 <= u)%Q.
Proof.
  destruct (reported_uptime_is_elapsed_time (mkProcess (1000 # 1))
              (at_time world_up (2001 # 2)))
    as (hbody & hcode & dbody & dcode & u & Hr & Hu & _ & _ & _ & _ & H).
  exists hbody, hcode, u. split; [exact Hr|]. split; [exact Hu|].
  apply H. vm_compute. discriminate.
Defined.
